(** * go-elastic-w-pagination: the Load decoder and the two pagination drivers

    A shallow embedding of [es.Client.Load] (src/es/es.go) and of the
    drivers [loadSimplePagination] and [cursorPaginate] (package main),
    followed by the properties of the pagination and cursor protocol.

    What the Go code gets from other packages is kept abstract:
    - the jsoniter codec ([Encode], [Marshal], [UnmarshalUser], [DecodeMap]),
    - the search engine behind [esClient.Search] ([Engine], [Search]),
    - the result of converting an unrepresentable float64 to int64.
    Every theorem holds for all implementations of these.  The [context.Context]
    argument only travels to the transport and is left out. *)

From Stdlib Require Import ZArith List Lia Strings.Byte.
From Stdlib Require Import Floats.SpecFloat.
From stdpp Require Import base option list strings pretty gmap.

Set Default Proof Using "Type*".
Local Open Scope Z_scope.

(** ** Go values *)

(** [float64]: IEEE 754 binary64 data, as the Standard Library specifies it. *)
Abbreviation float64 := spec_float.

Definition f64_zero : float64 := S754_zero false.

(** Go's [a != b] on float64: true as soon as one side is NaN, false on
    [+0] against [-0]. *)
Definition f64_neq (a b : float64) : bool := negb (SFeqb a b).

Definition min_int64 : Z := - 2 ^ 63.
Definition max_int64 : Z := 2 ^ 63 - 1.

(** Two's complement wrap-around of a 64-bit [int]. *)
Definition wrap64 (z : Z) : Z := (z + 2 ^ 63) mod 2 ^ 64 - 2 ^ 63.

(** The exact value of a float64 with its fraction discarded (towards zero);
    [None] for NaN and the infinities. *)
Definition float64_truncate (f : float64) : option Z :=
  match f with
  | S754_zero _ => Some 0
  | S754_finite s m e =>
      let mag := Z.shiftl (Z.pos m) e in
      Some (if s then - mag else mag)
  | S754_infinity _ | S754_nan => None
  end.

Definition bytes := list byte.

(** The dynamic values jsoniter decodes into [interface{}]: [nil], [bool],
    [float64], [string], [[]interface{}] and [map[string]interface{}]. *)
#[warnings="-register-all"]
Inductive any : Type :=
  | Nil
  | Bool (b : bool)
  | Float64 (f : float64)
  | String (s : string)
  | Slice (l : list any)
  | Map (m : gmap string any).

(** [m[k]] on a Go map: the zero value [nil] when the key is absent. *)
Definition index (m : gmap string any) (k : string) : any :=
  default Nil (m !! k).

(** ** The types of package es *)

Record Client := {
  defaultIndex : string;
  maxSearchQueryTimeout : Z;
  isTrackTotalHits : bool
}.

(** time.Time, by its three fields. *)
Record Time := { wall : Z; ext : Z; loc : option string }.

Record User := {
  ID : Z;
  CreatedAt : Time;
  Username : string
}.

Record SearchResult := {
  Users : list User;
  TotalCount : Z;
  LastSort : float64
}.

(** [SearchResult{}] *)
Definition zeroSearchResult : SearchResult :=
  {| Users := []; TotalCount := 0; LastSort := f64_zero |}.

(** The errors [Load] builds with fmt.Errorf, one constructor per site. *)
Inductive error : Type :=
  | ErrEncodingQuery (query : gmap string any) (err : string)
  | ErrSearchResponse (err : string)
  | ErrParsingFailureBody (err : string)
  | ErrFailureStatus (e : gmap string any)
  | ErrParsingGoodBody (err : string).

Inductive result (A : Type) : Type :=
  | Ok (a : A)
  | Err (err : string).
Arguments Ok {A} a.
Arguments Err {A} err.

(** ** The search request and its response (esapi) *)

(** The functional options handed to [esClient.Search]; [WithFrom] is present
    in one of the two calls only. *)
Record SearchRequest := {
  WithTimeout : Z;
  WithIndex : string;
  WithBody : bytes;
  WithFrom : option Z;
  WithSize : Z;
  WithTrackTotalHits : bool;
  WithPretty : bool
}.

Record Response := {
  StatusCode : Z;
  Body : bytes;
  CloseErr : option string
}.

(** esapi: [func (r *Response) IsError() bool { return r.StatusCode > 299 }] *)
Definition IsError (res : Response) : bool := 299 <? StatusCode res.

(** ** What the code takes from outside *)

Class Jsoniter := {
  (** [jsoniter.NewEncoder(&buf).Encode(query)] *)
  Encode : gmap string any -> result bytes;
  (** [jsoniter.Marshal] of a [map[string]interface{}] *)
  Marshal : gmap string any -> result bytes;
  (** [jsoniter.Unmarshal(jsonBody, &doc)] on a fresh [User{}] *)
  UnmarshalUser : bytes -> result User;
  (** [jsoniter.NewDecoder(res.Body).Decode(&m)] into a string-keyed map *)
  DecodeMap : bytes -> result (gmap string any)
}.

Class Elasticsearch := {
  Engine : Type;
  (** one round trip of [esClient.Search]: a transport error or a response,
      and the engine afterwards *)
  Search : Engine -> SearchRequest -> result Response * Engine
}.

Class Platform := {
  (** Go leaves [int64(f)] to the implementation when [f] is NaN, infinite
      or out of range. *)
  int64_unrepresentable : float64 -> Z
}.

Inductive LogEntry : Type :=
  | ZapError (msg : string)
  | ZapInfo (msg : string)
  | StdPrintf (format : string) (arg : float64)
  | StdFatalf (format : string) (err : error).

(** How a call ends: it returns, it panics, the process exits (log.Fatalf),
    or the model ran out of loop fuel. *)
Inductive Outcome (A : Type) : Type :=
  | Ret (a : A)
  | Panic (msg : string)
  | Exit (code : Z)
  | OutOfFuel.
Arguments Ret {A} a.
Arguments Panic {A} msg.
Arguments Exit {A} code.
Arguments OutOfFuel {A}.

Section Model.
Context `{J : Jsoniter} `{E : Elasticsearch} `{P : Platform}.

(** [int64(f)] *)
Definition int64_of_float64 (f : float64) : Z :=
  match float64_truncate f with
  | Some z =>
      if (min_int64 <=? z) && (z <=? max_int64) then z
      else int64_unrepresentable f
  | None => int64_unrepresentable f
  end.

(** ** State and effects *)

Record World := {
  engine : Engine;
  issued : list SearchRequest;   (* the requests sent so far, oldest first *)
  logged : list LogEntry
}.

Definition M (A : Type) : Type := World -> Outcome A * World.

Definition ret {A} (a : A) : M A := fun w => (Ret a, w).

Definition bind {A B} (m : M A) (k : A -> M B) : M B :=
  fun w =>
    match m w with
    | (Ret a, w1) => k a w1
    | (Panic msg, w1) => (Panic msg, w1)
    | (Exit code, w1) => (Exit code, w1)
    | (OutOfFuel, w1) => (OutOfFuel, w1)
    end.

Definition panic {A} (msg : string) : M A := fun w => (Panic msg, w).

Definition log (e : LogEntry) : M unit :=
  fun w => (Ret tt, {| engine := engine w; issued := issued w;
                       logged := logged w ++ [e] |}).

(** log.Fatalf: print, then os.Exit(1) *)
Definition Fatalf {A} (format : string) (err : error) : M A :=
  fun w => (Exit 1, {| engine := engine w; issued := issued w;
                       logged := logged w ++ [StdFatalf format err] |}).

Definition search (req : SearchRequest) : M (result Response) :=
  fun w =>
    let (r, eng) := Search (engine w) req in
    (Ret r, {| engine := eng; issued := issued w ++ [req];
               logged := logged w |}).

(** [defer d] around [body]: [d] runs when [body] is left, also by a panic. *)
Definition defer {A} (d : M unit) (body : M A) : M A :=
  fun w => let (o, w1) := body w in (o, snd (d w1)).

End Model.

Declare Scope go_scope.
Delimit Scope go_scope with go.
Notation "x <- m ;; k" := (bind m (fun x => k))
  (at level 100, m at next level, right associativity) : go_scope.
Notation "m ;;; k" := (bind m (fun _ => k))
  (at level 100, right associativity) : go_scope.
Local Open Scope go_scope.

Section Load.
Context `{J : Jsoniter} `{E : Elasticsearch} `{P : Platform}.

(** ** Type assertions and indexing, which panic *)

(** [v.(map[string]interface{})] *)
Definition assertMap (v : any) : M (gmap string any) :=
  match v with
  | Map m => ret m
  | _ => panic "interface conversion: interface {} is not map[string]interface {}"
  end.

(** [v.([]interface{})] *)
Definition assertSlice (v : any) : M (list any) :=
  match v with
  | Slice l => ret l
  | _ => panic "interface conversion: interface {} is not []interface {}"
  end.

(** [v.(float64)] *)
Definition assertFloat64 (v : any) : M float64 :=
  match v with
  | Float64 f => ret f
  | _ => panic "interface conversion: interface {} is not float64"
  end.

(** [l[0]] *)
Definition index0 (l : list any) : M any :=
  match l with
  | x :: _ => ret x
  | [] => panic "index out of range [0] with length 0"
  end.

(** ** Load, lines 114 to 168: the query and the request *)

(** The query map as it stands when it is encoded. *)
Definition buildQuery (cursor : float64) : gmap string any :=
  let query : gmap string any :=
    {[ "query" := Map {[ "match_all" := Map ∅ ]} ]} in
  let sortQuery := Slice [Map {[ "ID" := Map {[ "order" := String "asc" ]} ]}] in
  let query := <[ "sort" := sortQuery ]> query in
  if f64_neq cursor f64_zero
  then <[ "search_after" := Slice [Float64 cursor] ]> query
  else query.

(** The options of the [Search] call: without [WithFrom] when the cursor
    is set, with it otherwise. *)
Definition LoadRequest (c : Client) (index : string) (from size : Z)
    (cursor : float64) (buf : bytes) : SearchRequest :=
  let index := if decide (index = "") then defaultIndex c else index in
  if f64_neq cursor f64_zero then
    {| WithTimeout := maxSearchQueryTimeout c; WithIndex := index;
       WithBody := buf; WithFrom := None; WithSize := size;
       WithTrackTotalHits := isTrackTotalHits c; WithPretty := true |}
  else
    {| WithTimeout := maxSearchQueryTimeout c; WithIndex := index;
       WithBody := buf; WithFrom := Some from; WithSize := size;
       WithTrackTotalHits := isTrackTotalHits c; WithPretty := true |}.

(** ** Load, lines 204 to 246: the envelope becomes a SearchResult *)

(** The [for _, v := range ...] loop with its two early returns. *)
Fixpoint rangeHits (totalCnt : Z) (hits : list any) (docs : list User)
    (lastSort : float64) : M SearchResult :=
  match hits with
  | [] => ret {| Users := docs; TotalCount := totalCnt; LastSort := lastSort |}
  | v :: rest =>
      vm <- assertMap v ;;
      srt <- assertSlice (index vm "sort") ;;
      s0 <- index0 srt ;;
      lastSort <- assertFloat64 s0 ;;
      vm' <- assertMap v ;;
      src <- assertMap (index vm' "_source") ;;
      match Marshal src with
      | Err _ =>
          log (ZapError "es.client.Load() err from jsoniter.Marshal") ;;;
          ret {| Users := docs; TotalCount := totalCnt; LastSort := f64_zero |}
      | Ok jsonBody =>
          match UnmarshalUser jsonBody with
          | Err _ =>
              log (ZapError "es.client.Load() err from jsoniter.Unmarshal") ;;;
              ret {| Users := docs; TotalCount := totalCnt; LastSort := f64_zero |}
          | Ok doc => rangeHits totalCnt rest (docs ++ [doc]) lastSort
          end
      end
  end.

(** The closure [result := func() SearchResult { ... }()]. *)
Definition Load_result (r : gmap string any) : M SearchResult :=
  h <- assertMap (index r "hits") ;;
  t <- assertMap (index h "total") ;;
  value <- assertFloat64 (index t "value") ;;
  let totalCnt := int64_of_float64 value in
  if totalCnt =? 0 then ret zeroSearchResult
  else
    h1 <- assertMap (index r "hits") ;;
    _cntFind <- assertSlice (index h1 "hits") ;;
    h2 <- assertMap (index r "hits") ;;
    hits <- assertSlice (index h2 "hits") ;;
    rangeHits totalCnt hits [] f64_zero.

(** The deferred [res.Body.Close()]. *)
Definition closeBody (res : Response) : M unit :=
  match CloseErr res with
  | Some _ => log (ZapError "es.Client.Load() res.Body.Close()")
  | None => ret tt
  end.

(** ** Load *)

Definition Load (c : Client) (index : string) (from size : Z)
    (cursor : float64) : M (SearchResult * option error) :=
  let query := buildQuery cursor in
  match Encode query with
  | Err err => ret (zeroSearchResult, Some (ErrEncodingQuery query err))
  | Ok buf =>
      sr <- search (LoadRequest c index from size cursor buf) ;;
      match sr with
      | Err err => ret (zeroSearchResult, Some (ErrSearchResponse err))
      | Ok res =>
          defer (closeBody res)
            (if IsError res then
               log (ZapError "es.Clint.Load() failure response") ;;;
               match DecodeMap (Body res) with
               | Err err =>
                   ret (zeroSearchResult, Some (ErrParsingFailureBody err))
               | Ok e => ret (zeroSearchResult, Some (ErrFailureStatus e))
               end
             else
               match DecodeMap (Body res) with
               | Err err =>
                   log (ZapInfo "") ;;;
                   ret (zeroSearchResult, Some (ErrParsingGoodBody err))
               | Ok r =>
                   result <- Load_result r ;;
                   ret (result, None)
               end)
      end
  end.

End Load.

(** ** The drivers of package main *)

Section Drivers.
Context `{J : Jsoniter} `{E : Elasticsearch} `{P : Platform}.

(** [for i := init; cond(i); i = post(i) { body }], threading the variables
    the body updates.  A Go [for] need not end; the fuel bounds the number
    of times the condition is tested. *)
Fixpoint forLoop {S : Type} (fuel : nat) (cond : Z -> bool) (post : Z -> Z)
    (body : Z -> S -> M S) (i : Z) (s : S) : M S :=
  match fuel with
  | O => fun w => (OutOfFuel, w)
  | Datatypes.S fuel' =>
      if cond i then
        s' <- body i s ;;
        forLoop fuel' cond post body (post i) s'
      else ret s
  end.

(** The body of the loop of [loadSimplePagination]. *)
Definition offsetStep (client : Client) (index : string) (size : Z)
    (i : Z) (result : list User) : M (list User) :=
  r <- Load client index i size f64_zero ;;
  match r with
  | (res, Some err2) => Fatalf "failed to fetch results: %v" err2
  | (res, None) =>
      let users := Users res in
      ret (result ++ users)
  end.

(** [loadSimplePagination] with its three constants ([from], [size] and the
    bound 100 of the loop condition) as parameters. *)
Definition offsetPagination (fuel : nat) (client : Client) (index : string)
    (from size bound : Z) : M (list User) :=
  forLoop fuel (fun i => i <? bound) (fun i => wrap64 (i + size))
    (offsetStep client index size) from [].

Definition loadSimplePagination (fuel : nat) (client : Client)
    (index : string) : M (list User) :=
  offsetPagination fuel client index 0 10 100.

(** The body of the loop of [cursorPaginate]; the state is [(ls, res)]. *)
Definition cursorStep (client : Client) (index : string) (size : Z)
    (i : Z) (s : float64 * list User) : M (float64 * list User) :=
  let (ls, res) := s in
  r <- Load client index 0 size ls ;;
  match r with
  | (res2, Some err2) => Fatalf "failed to fetch results: %v" err2
  | (res2, None) =>
      let ls := LastSort res2 in
      log (StdPrintf "current cursor: %v\n" ls) ;;;
      let users := Users res2 in
      ret (ls, res ++ users)
  end.

Definition cursorPaginate (fuel : nat) (client : Client) (index : string)
    : M (list User) :=
  let from := 0 in
  let size := 10 in
  r <- Load client index from size f64_zero ;;
  let (initRes, _) := r in
  let ls := LastSort initRes in
  let res := [] ++ Users initRes in
  s <- forLoop fuel (fun i => i <? 10) (fun i => wrap64 (i + 1))
         (cursorStep client index size) 1 (ls, res) ;;
  ret (snd s).

End Drivers.

(** ** The vocabulary of the properties *)

Section Vocabulary.
Context `{J : Jsoniter} `{E : Elasticsearch} `{P : Platform}.

(** A step along a path of the envelope: the member [k] of an object. *)
Definition field (v : option any) (k : string) : option any :=
  match v with
  | Some (Map m) => m !! k
  | _ => None
  end.

(** What sits at hits.total.value, and at hits.hits. *)
Definition hits_total_value (r : gmap string any) : option any :=
  field (field (r !! "hits") "total") "value".

Definition hits_hits (r : gmap string any) : option any :=
  field (r !! "hits") "hits".

(** [Load]'s query is encoded, the engine answers the request with the
    success-status response [res], and the body of [res] decodes to the
    envelope [r]. *)
Definition Receives (c : Client) (index : string) (from size : Z)
    (cursor : float64) (w : World) (res : Response)
    (r : gmap string any) : Prop :=
  exists buf,
    Encode (buildQuery cursor) = Ok buf /\
    fst (Search (engine w) (LoadRequest c index from size cursor buf)) = Ok res /\
    IsError res = false /\
    DecodeMap (Body res) = Ok r.

(** What [Load] sends: nothing when the query does not encode, one request
    otherwise. *)
Definition LoadIssues (c : Client) (index : string) (from size : Z)
    (cursor : float64) : list SearchRequest :=
  match Encode (buildQuery cursor) with
  | Ok buf => [LoadRequest c index from size cursor buf]
  | Err _ => []
  end.

(** The two steps from a [_source] object to a typed document. *)
Definition decodeSource (src : gmap string any) : result User :=
  match Marshal src with
  | Ok jsonBody => UnmarshalUser jsonBody
  | Err err => Err err
  end.

(** An entry of hits.hits with sort key [s] whose [_source] decodes to [doc]. *)
Inductive HitDecodes : any -> float64 -> User -> Prop :=
  | hit_decodes vm s rest src doc :
      vm !! "sort" = Some (Slice (Float64 s :: rest)) ->
      vm !! "_source" = Some (Map src) ->
      decodeSource src = Ok doc ->
      HitDecodes (Map vm) s doc.

(** An entry of hits.hits whose [_source] does not decode. *)
Inductive HitFails : any -> Prop :=
  | hit_fails vm s rest src err :
      vm !! "sort" = Some (Slice (Float64 s :: rest)) ->
      vm !! "_source" = Some (Map src) ->
      decodeSource src = Err err ->
      HitFails (Map vm).

(** [hits] decode, one by one, to the sort keys and documents [sds]. *)
Definition HitsDecode (hits : list any) (sds : list (float64 * User)) : Prop :=
  Forall2 (fun v sd => HitDecodes v (fst sd) (snd sd)) hits sds.

(** The pages the offset loop fetches: [Load] at each offset in turn,
    each returning without error. *)
Inductive Fetched (c : Client) (index : string) (size : Z)
    : World -> list Z -> list SearchResult -> World -> Prop :=
  | Fetched_nil w : Fetched c index size w [] [] w
  | Fetched_cons w i page w1 offs pages w' :
      Load c index i size f64_zero w = (Ret (page, None), w1) ->
      Fetched c index size w1 offs pages w' ->
      Fetched c index size w (i :: offs) (page :: pages) w'.

(** The ceiling of [bound / size], and the offsets [0, size, 2 size, ...]
    below [bound]. *)
Definition pageCount (bound size : Z) : nat :=
  Z.to_nat ((bound + size - 1) / size).

(** [m] consecutive offsets, from [k * size] on. *)
Definition offsetsFrom (size : Z) (k m : nat) : list Z :=
  (fun j => Z.of_nat j * size) <$> seq k m.

Definition pageOffsets (bound size : Z) : list Z :=
  offsetsFrom size 0 (pageCount bound size).

(** *** Three sentences of the specification, as they are worded *)

(** "For all pages with at least one hit, the reported cursor equals the
    sort key of the last entry in hits.hits, independent of document-decode
    partial failures occurring earlier in the same page." *)
Definition cursor_is_last_sort_key_as_worded (c : Client) (index : string)
    (from size : Z) (cursor : float64) (w : World) : Prop :=
  forall res r hits vm s rest,
    Receives c index from size cursor w res r ->
    hits_hits r = Some (Slice hits) ->
    last hits = Some (Map vm) ->
    vm !! "sort" = Some (Slice (Float64 s :: rest)) ->
    exists sr, fst (Load c index from size cursor w) = Ret (sr, None) /\
               LastSort sr = s.

(** "A response where the Nth document entry has a malformed _source yields
    a Page containing exactly the first N-1 successfully decoded documents,
    the original total count, and no error." *)
Definition truncated_page_as_worded (c : Client) (index : string)
    (from size : Z) (cursor : float64) (w : World) : Prop :=
  forall res r f pre bad post sds,
    Receives c index from size cursor w res r ->
    hits_total_value r = Some (Float64 f) ->
    hits_hits r = Some (Slice (pre ++ bad :: post)) ->
    post <> [] ->
    HitsDecode pre sds ->
    HitFails bad ->
    exists sr, fst (Load c index from size cursor w) = Ret (sr, None) /\
               Users sr = snd <$> sds /\
               TotalCount sr = int64_of_float64 f.

(** "A missing hits.total.value path yields a decode error and an
    empty/zero Page." *)
Definition missing_total_is_error_as_worded (c : Client) (index : string)
    (from size : Z) (cursor : float64) (w : World) : Prop :=
  forall res r,
    Receives c index from size cursor w res r ->
    (forall f, hits_total_value r <> Some (Float64 f)) ->
    exists err,
      fst (Load c index from size cursor w) = Ret (zeroSearchResult, Some err).

End Vocabulary.

(** ** A scripted codec and engine, to run the model on concrete inputs *)

Module Scripted.

(** amd64: the "integer indefinite" value *)
Definition platform : Platform := {| int64_unrepresentable := fun _ => min_int64 |}.

(** An engine that plays back a list of replies, whatever the request. *)
Definition engineOf : Elasticsearch :=
  {| Engine := list (result Response);
     Search := fun eng _ =>
       match eng with
       | r :: rest => (r, rest)
       | [] => (Err "connection refused", [])
       end |}.

Definition f64 (m : positive) (e : Z) : float64 := S754_finite false m e.
Definition two : float64 := f64 4503599627370496 (-51).
Definition three : float64 := f64 6755399441055744 (-51).
Definition five : float64 := f64 5629499534213120 (-50).
Definition seven : float64 := f64 7881299347898368 (-50).
Definition twentyfive : float64 := f64 7036874417766400 (-48).

Definition epoch : Time := {| wall := 0; ext := 0; loc := None |}.

Definition userOf (id : Z) : User :=
  {| ID := id; CreatedAt := epoch; Username := "user" |}.

(** One entry of hits.hits. *)
Definition hitMap (srt : float64) (id : any) : gmap string any :=
  {[ "sort" := Slice [Float64 srt];
     "_source" := Map {[ "ID" := id; "Username" := String "user" ]} ]}.

Definition hit (srt : float64) (id : any) : any := Map (hitMap srt id).

Definition envelope (total : any) (hits : list any) : gmap string any :=
  {[ "hits" := Map {[ "total" := Map {[ "value" := total ]};
                      "hits" := Slice hits ]} ]}.

Definition good5 : any := hit five (Float64 five).
Definition good7 : any := hit seven (Float64 seven).
Definition bad5 : any := hit five (String "five").
Definition bad7 : any := hit seven (String "seven").

(** The bodies the scripted decoder knows, numbered by their only byte. *)
Definition envelopes : list (gmap string any) :=
  [ ∅ ;
    envelope (Float64 f64_zero) [String "noise"] ;
    envelope (Float64 twentyfive) [good5; good7] ;
    envelope (Float64 two) [bad5; good7] ;
    envelope (Float64 three) [good5; bad7; String "noise"] ;
    envelope (Float64 f64_zero) [good5; bad7; good7] ;
    envelope (String "25") [good5] ].

Definition codec : Jsoniter :=
  {| Encode := fun q =>
       match q !! "search_after" with
       | Some (Slice [Float64 S754_nan]) => Err "unsupported value: NaN"
       | Some _ => Ok ["c"%byte]
       | None => Ok ["o"%byte]
       end;
     Marshal := fun src =>
       match src !! "ID" with
       | Some (Float64 f) =>
           match float64_truncate f with
           | Some z => match Byte.of_N (Z.to_N z) with
                       | Some b => Ok [b]
                       | None => Err "unsupported value"
                       end
           | None => Err "unsupported value"
           end
       | _ => Ok []
       end;
     UnmarshalUser := fun b =>
       match b with
       | [x] => Ok (userOf (Z.of_N (Byte.to_N x)))
       | _ => Err "ReadObject: expect { or , or } or n"
       end;
     DecodeMap := fun b =>
       match b with
       | [x] => match envelopes !! N.to_nat (Byte.to_N x) with
                | Some r => Ok r
                | None => Err "readObjectStart: expect { or n"
                end
       | _ => Err "readObjectStart: expect { or n"
       end |}.

Definition client : Client :=
  {| defaultIndex := "my-simple-index";
     maxSearchQueryTimeout := 30000000000;
     isTrackTotalHits := true |}.

(** A 200 response whose body is envelope number [n]. *)
Definition ok200 (n : byte) : result Response :=
  Ok {| StatusCode := 200; Body := [n]; CloseErr := None |}.

Definition world (replies : list (result Response)) : @World engineOf :=
  @Build_World engineOf replies [] [].

End Scripted.

(** * The rest of the code: New, Store, CreateIndex, Create100kUsers and the
    small callers of package main *)

(** ** More types of package es, and of esapi *)

Record Config := {
  Hosts : list string;
  DefaultIndex : string;
  DisableCompression : bool;
  MaxSearchQueryTimeout : Z;
  PathToMappingSchema : string;
  IsTrackTotalHits : bool
}.

(** esapi.IndexRequest, by the fields [Store] sets. *)
Module IndexRequest.
Record t := {
  Index : string;
  DocumentID : string;
  Body : bytes;
  Refresh : string
}.
End IndexRequest.

(** esapi.IndicesCreateRequest, by the fields [CreateIndex] sets. *)
Module IndicesCreateRequest.
Record t := {
  Index : string;
  Body : bytes
}.
End IndicesCreateRequest.

(** The errors [Store] and [CreateIndex] build with fmt.Errorf. *)
Inductive esError : Type :=
  | ErrMarshalingDocument (doc : User) (err : string)
  | ErrSendingRequest (err : string)
  | ErrInsertingDocument (res : Response)
  | ErrCreatingIndex (err : string)
  | ErrCreatingIndexResponse (res : Response).

(** A call into a library returns, or panics. *)
Inductive Called (A : Type) : Type :=
  | Returned (a : A)
  | Panicked (msg : string).
Arguments Returned {A} a.
Arguments Panicked {A} msg.

(** [req.Do(ctx, c.esClient)] for the two request types. *)
Class Esapi `{E : Elasticsearch} := {
  IndexDo : Engine -> IndexRequest.t -> Called (result Response) * Engine;
  IndicesCreateDo :
    Engine -> IndicesCreateRequest.t -> Called (result Response) * Engine
}.

Class JsoniterUser := {
  (** [jsoniter.Marshal(doc)] of a [User] *)
  MarshalUser : User -> result bytes
}.

Class Os := {
  (** [os.ReadFile]: the data, which may be nil, and the error, which may
      be nil *)
  ReadFile : string -> option bytes * option string;
  (** [time.Now()] *)
  Now : Time
}.

Class GoElasticsearch := {
  EsConfig : Type;
  (** [elasticsearch.NewClient(esCfg)]: its error, if any *)
  NewClient : EsConfig -> option string
}.

Inductive Journal : Type :=
  | JZapError (msg : string)
  | JZapDebug (msg : string)
  | JZapFatal (msg : string)
  | JStdFatal (msg : string) (err : esError)
  | JStdFatalf (format : string) (err : esError).

Section Admin.
Context `{J : Jsoniter} `{E : Elasticsearch} `{P : Platform}.
Context `{API : !Esapi} `{JU : JsoniterUser} `{OS : Os} `{G : GoElasticsearch}.

(** ** State and effects of the indexing side *)

Record Cluster := {
  node : Engine;
  indexRequests : list IndexRequest.t;          (* oldest first *)
  createRequests : list IndicesCreateRequest.t;
  journal : list Journal
}.

Definition Adm (T : Type) : Type := Cluster -> Outcome T * Cluster.

Definition retA {T} (a : T) : Adm T := fun cl => (Ret a, cl).

Definition bindA {T U} (m : Adm T) (k : T -> Adm U) : Adm U :=
  fun cl =>
    match m cl with
    | (Ret a, cl1) => k a cl1
    | (Panic msg, cl1) => (Panic msg, cl1)
    | (Exit code, cl1) => (Exit code, cl1)
    | (OutOfFuel, cl1) => (OutOfFuel, cl1)
    end.

Definition write (e : Journal) (cl : Cluster) : Cluster :=
  {| node := node cl; indexRequests := indexRequests cl;
     createRequests := createRequests cl; journal := journal cl ++ [e] |}.

Definition logA (e : Journal) : Adm unit := fun cl => (Ret tt, write e cl).

(** c.log.Fatal, log.Fatal and log.Fatalf: print, then os.Exit(1) *)
Definition fatalA {T} (e : Journal) : Adm T := fun cl => (Exit 1, write e cl).

Definition indexDo (req : IndexRequest.t) : Adm (result Response) :=
  fun cl =>
    let (r, eng) := IndexDo (node cl) req in
    let cl1 := {| node := eng; indexRequests := indexRequests cl ++ [req];
                  createRequests := createRequests cl;
                  journal := journal cl |} in
    match r with
    | Returned x => (Ret x, cl1)
    | Panicked msg => (Panic msg, cl1)
    end.

Definition indicesCreateDo (req : IndicesCreateRequest.t)
    : Adm (result Response) :=
  fun cl =>
    let (r, eng) := IndicesCreateDo (node cl) req in
    let cl1 := {| node := eng; indexRequests := indexRequests cl;
                  createRequests := createRequests cl ++ [req];
                  journal := journal cl |} in
    match r with
    | Returned x => (Ret x, cl1)
    | Panicked msg => (Panic msg, cl1)
    end.

(** [defer d] around [body], as in [Load]. *)
Definition deferA {T} (d : Adm unit) (body : Adm T) : Adm T :=
  fun cl => let (o, cl1) := body cl in (o, snd (d cl1)).

(** The deferred [res.Body.Close()] of [Store] and [CreateIndex]. *)
Definition closeBodyA (res : Response) : Adm unit :=
  match CloseErr res with
  | Some _ => logA (JZapError "res.Body.Close() problem")
  | None => retA tt
  end.

(** The first deferred function of [Store]: a panic of the body is
    recovered and logged, and [Store] returns the zero value of its result,
    a nil error. *)
Definition deferRecover (body : Adm (option esError)) : Adm (option esError) :=
  fun cl =>
    match body cl with
    | (Panic _, cl1) =>
        (Ret None, write (JZapError "es.Client.Store() recover from panic") cl1)
    | other => other
    end.

(** [for] on the indexing side; see [forLoop]. *)
Fixpoint forLoopA {S : Type} (fuel : nat) (cond : Z -> bool) (post : Z -> Z)
    (body : Z -> S -> Adm S) (i : Z) (s : S) : Adm S :=
  match fuel with
  | O => fun cl => (OutOfFuel, cl)
  | Datatypes.S fuel' =>
      if cond i then
        bindA (body i s) (fun s' => forLoopA fuel' cond post body (post i) s')
      else retA s
  end.

(** ** New *)

Definition New (esCfg : EsConfig) (customCfg : Config)
    : M (option Client * option string) :=
  match NewClient esCfg with
  | Some err =>
      log (ZapInfo "Could not create new ElasticSearch client due error") ;;;
      ret (None, Some err)
  | None =>
      log (ZapInfo "Successfully create new ElasticSearch client.") ;;;
      log (ZapInfo "Successfully connected to AWS OpenSearch (Elasticsearch) cluster. Hosts: %v") ;;;
      log (ZapInfo "Try to create defaultIndex (if not exist)") ;;;
      let c := {| defaultIndex := DefaultIndex customCfg;
                  maxSearchQueryTimeout := MaxSearchQueryTimeout customCfg;
                  isTrackTotalHits := true |} in
      ret (Some c, None)
  end.

(** ** CreateIndex *)

Definition CreateIndex (c : Client) (index : string) (mapping : string)
    : Adm (option esError) :=
  let (file, err) := ReadFile mapping in
  match err, file with
  | None, Some file =>
      let indexMappingSchema := file in
      let req := {| IndicesCreateRequest.Index := index;
                    IndicesCreateRequest.Body := indexMappingSchema |} in
      bindA (indicesCreateDo req) (fun r =>
      match r with
      | Err err => retA (Some (ErrCreatingIndex err))
      | Ok res =>
          deferA (closeBodyA res)
            (if IsError res then retA (Some (ErrCreatingIndexResponse res))
             else retA None)
      end)
  | _, _ =>
      fatalA (JZapFatal "Could not read file with mapping defaultIndex schema")
  end.

(** ** Store *)

Definition StoreRequest (c : Client) (index : string) (docB : bytes)
    : IndexRequest.t :=
  let index := if decide (index = "") then defaultIndex c else index in
  {| IndexRequest.Index := index;
     IndexRequest.DocumentID := "";
     IndexRequest.Body := docB;
     IndexRequest.Refresh := "true" |}.

Definition Store (c : Client) (index : string) (doc : User)
    : Adm (option esError) :=
  deferRecover
    (match MarshalUser doc with
     | Err err => retA (Some (ErrMarshalingDocument doc err))
     | Ok docB =>
         bindA (indexDo (StoreRequest c index docB)) (fun r =>
         match r with
         | Err err => retA (Some (ErrSendingRequest err))
         | Ok res =>
             deferA (closeBodyA res)
               (if IsError res then retA (Some (ErrInsertingDocument res))
                else
                  bindA (logA (JZapDebug "Successfully send doc to elastic"))
                    (fun _ => retA None))
         end)
     end).

(** ** Create100kUsers *)

(** [fmt.Sprintf("%v %v", "user", i)] *)
Definition userName (i : Z) : string := "user" +:+ " " +:+ pretty i.

(** The body of the loop; the state is the variable [user]. *)
Definition storeStep (c : Client) (index : string) (i : Z) (user : User)
    : Adm User :=
  let user := {| ID := ID user; CreatedAt := CreatedAt user;
                 Username := userName i |} in
  let user := {| ID := i; CreatedAt := CreatedAt user;
                 Username := Username user |} in
  bindA (Store c index user) (fun err =>
  match err with
  | Some err => fatalA (JStdFatal "failed to store" err)
  | None => retA user
  end).

(** [Create100kUsers] with the constant 100000 of its loop condition as a
    parameter. *)
Definition createUsers (fuel : nat) (c : Client) (index : string) (n : Z)
    : Adm unit :=
  let user := {| ID := 0; CreatedAt := Now; Username := "init" |} in
  bindA (forLoopA fuel (fun i => i <? n) (fun i => wrap64 (i + 1))
           (storeStep c index) 0 user)
    (fun _ => retA tt).

Definition Create100kUsers (fuel : nat) (c : Client) (index : string)
    : Adm unit :=
  createUsers fuel c index 100000.

(** ** The small callers of package main *)

Definition create100kUsers (fuel : nat) (client : Client) (index : string)
    : Adm unit :=
  Create100kUsers fuel client index.

Definition createIndex (client : Client) (index : string) : Adm unit :=
  bindA (CreateIndex client index "mapping.json") (fun err =>
  match err with
  | Some err => fatalA (JStdFatalf "failed to create index: %v" err)
  | None => retA tt
  end).

Definition simpleLoad (client : Client) (index : string) : M SearchResult :=
  r <- Load client index 0 10 f64_zero ;;
  match r with
  | (res, Some err) => Fatalf "failed to fetch results: %v" err
  | (res, None) => ret res
  end.

End Admin.

(** ** More vocabulary *)

Section Vocabulary2.
Context `{J : Jsoniter} `{E : Elasticsearch} `{P : Platform}.

(** The pages the cursor loop fetches: each [Load] is seeded with the cursor
    the page before reported, and the new cursor is printed. *)
Inductive Chained (c : Client) (index : string) (size : Z)
    : World -> float64 -> list SearchResult -> World -> Prop :=
  | Chained_nil w ls : Chained c index size w ls [] w
  | Chained_cons w ls page w1 pages w' :
      Load c index 0 size ls w = (Ret (page, None), w1) ->
      Chained c index size
        (snd (log (StdPrintf "current cursor: %v\n" (LastSort page)) w1))
        (LastSort page) pages w' ->
      Chained c index size w ls (page :: pages) w'.

End Vocabulary2.

Section Vocabulary3.
Context `{J : Jsoniter} `{E : Elasticsearch} `{P : Platform}.
Context `{API : !Esapi} `{JU : JsoniterUser} `{OS : Os} `{G : GoElasticsearch}.

(** The Cluster after the request of [Store] has gone out. *)
Definition sent (req : IndexRequest.t) (eng : Engine) (cl : Cluster)
    : Cluster :=
  {| node := eng; indexRequests := indexRequests cl ++ [req];
     createRequests := createRequests cl; journal := journal cl |}.

(** The user [Create100kUsers] stores in round [i]. *)
Definition nthUser (i : Z) : User :=
  {| ID := i; CreatedAt := Now; Username := userName i |}.

(** The rounds of the loop of [Create100kUsers] in which [Store] returns a
    nil error. *)
Inductive Stored (c : Client) (index : string)
    : Cluster -> list Z -> Cluster -> Prop :=
  | Stored_nil cl : Stored c index cl [] cl
  | Stored_cons cl i cl1 rounds cl' :
      Store c index (nthUser i) cl = (Ret None, cl1) ->
      Stored c index cl1 rounds cl' ->
      Stored c index cl (i :: rounds) cl'.

(** The rounds [k], [k + 1], ..., [m] of them. *)
Definition roundsFrom (k m : nat) : list Z := Z.of_nat <$> seq k m.

End Vocabulary3.

(** ** A scripted engine for the indexing side *)

Module ScriptedAdmin.

(** The engine plays back what the calls of [Do] give; with nothing left to
    play, the call panics. *)
Definition engineOf : Elasticsearch :=
  {| Engine := list (Called (result Response));
     Search := fun eng _ => (Err "connection refused", eng) |}.

Definition playback (eng : list (Called (result Response)))
    : Called (result Response) * list (Called (result Response)) :=
  match eng with
  | r :: rest => (r, rest)
  | [] => (Panicked "invalid memory address or nil pointer dereference", [])
  end.

Definition esapi : @Esapi engineOf :=
  @Build_Esapi engineOf
    (fun (eng : list (Called (result Response))) _ => playback eng)
    (fun (eng : list (Called (result Response))) _ => playback eng).

Definition marshal : JsoniterUser :=
  {| MarshalUser := fun u =>
       if wall (CreatedAt u) <? 0
       then Err "Time.MarshalJSON: year outside of range [0,9999]"
       else Ok (String.list_byte_of_string (Username u)) |}.

Definition mappingFile : bytes := String.list_byte_of_string "{}".

Definition os : Os :=
  {| ReadFile := fun path =>
       if decide (path = "mapping.json") then (Some mappingFile, None)
       else (None, Some "open: no such file or directory");
     Now := Scripted.epoch |}.

Definition library : GoElasticsearch :=
  {| EsConfig := list string;
     NewClient := fun addresses =>
       if decide ("" ∈ addresses) then Some "cannot parse url" else None |}.

Definition status (code : Z) : Called (result Response) :=
  Returned (Ok {| StatusCode := code; Body := []; CloseErr := None |}).

Definition cluster (replies : list (Called (result Response)))
    : @Cluster engineOf :=
  @Build_Cluster engineOf replies [] [] [].

(** A transport whose calls all panic. *)
Definition brokenEsapi : @Esapi engineOf :=
  @Build_Esapi engineOf
    (fun (eng : list (Called (result Response))) _ =>
       (Panicked "invalid memory address or nil pointer dereference", eng))
    (fun (eng : list (Called (result Response))) _ =>
       (Panicked "invalid memory address or nil pointer dereference", eng)).

Definition config : Config :=
  {| Hosts := ["http://localhost:4566/es/us-east-1/my-data"];
     DefaultIndex := "my-simple-index";
     DisableCompression := true;
     MaxSearchQueryTimeout := 30000000000;
     PathToMappingSchema := "";
     IsTrackTotalHits := false |}.

End ScriptedAdmin.

(** ** More scripted envelopes *)

Module ScriptedMore.
Import Scripted.

(** Number 7 is a page past the end of the data; number 8 has an entry that
    is no object. *)
Definition envelopes : list (gmap string any) :=
  Scripted.envelopes
  ++ [ envelope (Float64 two) [] ;
       envelope (Float64 two) [good5; String "noise"] ].

(** [Scripted.codec], decoding the longer list of bodies. *)
Definition codec : Jsoniter :=
  {| Encode := @Encode Scripted.codec;
     Marshal := @Marshal Scripted.codec;
     UnmarshalUser := @UnmarshalUser Scripted.codec;
     DecodeMap := fun b =>
       match b with
       | [x] => match envelopes !! N.to_nat (Byte.to_N x) with
                | Some r => Ok r
                | None => Err "readObjectStart: expect { or n"
                end
       | _ => Err "readObjectStart: expect { or n"
       end |}.

End ScriptedMore.

(** ** A scripted envelope whose second entry has a string as [_source] *)

Module ScriptedSource.
Import Scripted.

Definition garbage7 : any :=
  Map {[ "sort" := Slice [Float64 seven]; "_source" := String "garbage" ]}.

(** Number 7: total 3, the second of three entries has no [_source]
    object. *)
Definition envelopes : list (gmap string any) :=
  Scripted.envelopes
  ++ [ envelope (Float64 three) [good5; garbage7; good7] ].

(** [Scripted.codec], decoding this list of bodies. *)
Definition codec : Jsoniter :=
  {| Encode := @Encode Scripted.codec;
     Marshal := @Marshal Scripted.codec;
     UnmarshalUser := @UnmarshalUser Scripted.codec;
     DecodeMap := fun b =>
       match b with
       | [x] => match envelopes !! N.to_nat (Byte.to_N x) with
                | Some r => Ok r
                | None => Err "readObjectStart: expect { or n"
                end
       | _ => Err "readObjectStart: expect { or n"
       end |}.

End ScriptedSource.

(** ** The program: prepareESClient, pp and main *)

(** What the program writes with package log and with fmt.Println. *)
Inductive Printed : Type :=
  | Fatalln (msg : string)
  | PrintlnError (err : string)
  | PrintlnJSON (b : bytes).

Class MainEnv `{G : GoElasticsearch} := {
  (** the error of [logger.New], if any *)
  LoggerNew : option string;
  (** the [elasticsearch.Config] that [prepareESClient] builds *)
  mainEsCfg : EsConfig;
  (** [json.MarshalIndent(data, "", "    ")] of a list of users *)
  MarshalIndent : list User -> result bytes
}.

Section Program.
Context `{J : Jsoniter} `{E : Elasticsearch} `{P : Platform}.
Context `{G : GoElasticsearch} `{ENV : !MainEnv}.

(** The state of the program: the world of the search side and what was
    printed. *)
Definition Prog (T : Type) : Type :=
  World * list Printed -> Outcome T * (World * list Printed).

Definition retP {T} (a : T) : Prog T := fun st => (Ret a, st).

Definition bindP {T U} (m : Prog T) (k : T -> Prog U) : Prog U :=
  fun st =>
    match m st with
    | (Ret a, st1) => k a st1
    | (Panic msg, st1) => (Panic msg, st1)
    | (Exit code, st1) => (Exit code, st1)
    | (OutOfFuel, st1) => (OutOfFuel, st1)
    end.

(** A call of the search side, which prints nothing. *)
Definition liftM {T} (m : M T) : Prog T :=
  fun st => let (o, w) := m (fst st) in (o, (w, snd st)).

Definition println (x : Printed) : Prog unit :=
  fun st => (Ret tt, (fst st, snd st ++ [x])).

(** log.Fatalln: print, then os.Exit(1) *)
Definition fatalln {T} (msg : string) : Prog T :=
  fun st => (Exit 1, (fst st, snd st ++ [Fatalln msg])).

(** The [es.Config] of [prepareESClient]; 30000000000 is the Duration that
    time.ParseDuration gives for "30s". *)
Definition customStorageCfg : Config :=
  {| Hosts := [];
     DefaultIndex := "my-simple-index";
     DisableCompression := false;
     MaxSearchQueryTimeout := 30000000000;
     PathToMappingSchema := "";
     IsTrackTotalHits := true |}.

(** The result is the pointer [es.New] returned, which may be nil. *)
Definition prepareESClient : Prog (option Client) :=
  match LoggerNew with
  | Some _ => fun st => (Panic "logger init error", st)
  | None =>
      bindP (liftM (New mainEsCfg customStorageCfg)) (fun r =>
      match r with
      | (esClient, Some err) => fatalln "failed to init esClient"
      | (esClient, None) => retP esClient
      end)
  end.

Definition pp (data : list User) : Prog unit :=
  match MarshalIndent data with
  | Err err => println (PrintlnError err)
  | Ok b => println (PrintlnJSON b)
  end.

(** [main]; a nil client makes [Load] panic where it reads the default
    index, after the query is encoded. *)
Definition main (fuel : nat) : Prog unit :=
  bindP prepareESClient (fun esClient =>
  bindP (match esClient, fuel with
         | Some client, _ => liftM (loadSimplePagination fuel client "")
         | None, O => fun st => (OutOfFuel, st)
         | None, S _ =>
             match Encode (buildQuery f64_zero) with
             | Err err =>
                 liftM (Fatalf "failed to fetch results: %v"
                          (ErrEncodingQuery (buildQuery f64_zero) err))
             | Ok _ =>
                 fun st =>
                   (Panic "invalid memory address or nil pointer dereference",
                    st)
             end
         end) (fun res =>
  pp res)).

End Program.

Module ScriptedProgram.

Definition env : @MainEnv ScriptedAdmin.library :=
  @Build_MainEnv ScriptedAdmin.library None
    ["http://localhost:4566/es/us-east-1/my-data"]
    (fun users => Ok (repeat "u"%byte (length users))).

End ScriptedProgram.

(** * Properties *)

(** Runs the monadic steps whose argument is known. *)
Ltac go_run :=
  unfold bind, assertMap, assertSlice, assertFloat64, index0, index;
  unfold ret, panic; cbn [from_option id fst snd]; cbv beta iota.

Section Properties.
Context `{J : Jsoniter} `{E : Elasticsearch} `{P : Platform}.

(** ** Floats and integers *)

Lemma f64_neq_zero_false (f : float64) :
  f64_neq f f64_zero = false -> exists s, f = S754_zero s.
Proof.
  unfold f64_neq, SFeqb, f64_zero.
  destruct f as [s|s| |s m e]; simpl; try destruct s; try discriminate; eauto.
Qed.

Lemma int64_of_float64_zero (s : bool) : int64_of_float64 (S754_zero s) = 0.
Proof. reflexivity. Qed.

Lemma wrap64_id (z : Z) : min_int64 <= z <= max_int64 -> wrap64 z = z.
Proof.
  unfold wrap64, min_int64, max_int64. intros Hz.
  rewrite Z.mod_small; lia.
Qed.

Lemma default_last_cons {A : Type} (l : list A) (a d : A) :
  default d (last (a :: l)) = default a (last l).
Proof. rewrite last_cons. by destruct (last l). Qed.

(** ** Paths of the envelope *)

Lemma hits_total_value_inv (r : gmap string any) (v : any) :
  hits_total_value r = Some v ->
  exists h t, r !! "hits" = Some (Map h) /\ h !! "total" = Some (Map t) /\
              t !! "value" = Some v.
Proof.
  unfold hits_total_value, field. intros H.
  destruct (r !! "hits") as [[| | | | |h]|] eqn:Hh; try discriminate.
  destruct (h !! "total") as [[| | | | |t]|] eqn:Ht; try discriminate.
  eauto.
Qed.

Lemma hits_hits_inv (r : gmap string any) (v : any) :
  hits_hits r = Some v ->
  exists h, r !! "hits" = Some (Map h) /\ h !! "hits" = Some v.
Proof.
  unfold hits_hits, field. intros H.
  destruct (r !! "hits") as [[| | | | |h]|] eqn:Hh; try discriminate.
  eauto.
Qed.

(** ** The loop over hits.hits *)

Lemma rangeHits_step (totalCnt : Z) (v : any) (rest : list any)
    (docs : list User) (lastSort s : float64) (doc : User) (w : World) :
  HitDecodes v s doc ->
  rangeHits totalCnt (v :: rest) docs lastSort w
  = rangeHits totalCnt rest (docs ++ [doc]) s w.
Proof.
  intros Hd. destruct Hd as [vm s rest' src doc Hs Hsrc Hdec].
  unfold decodeSource in Hdec.
  cbn [rangeHits]. go_run. rewrite Hs. go_run. rewrite Hsrc. go_run.
  destruct (Marshal src) as [jsonBody|]; [|discriminate].
  rewrite Hdec. reflexivity.
Qed.

Lemma rangeHits_all (totalCnt : Z) (hits : list any)
    (sds : list (float64 * User)) :
  HitsDecode hits sds ->
  forall docs lastSort w,
    rangeHits totalCnt hits docs lastSort w
    = (Ret {| Users := docs ++ (snd <$> sds); TotalCount := totalCnt;
              LastSort := default lastSort (last (fst <$> sds)) |}, w).
Proof.
  induction 1 as [|v [s d] hits sds Hv _ IH]; intros docs lastSort w.
  - cbn. rewrite app_nil_r. reflexivity.
  - rewrite (rangeHits_step _ _ _ _ _ _ _ _ Hv). rewrite IH.
    rewrite !fmap_cons, default_last_cons, <- app_assoc. reflexivity.
Qed.

Lemma rangeHits_fails (totalCnt : Z) (bad : any) (post : list any)
    (docs : list User) (lastSort : float64) (w : World) :
  HitFails bad ->
  exists msg,
    rangeHits totalCnt (bad :: post) docs lastSort w
    = (Ret {| Users := docs; TotalCount := totalCnt; LastSort := f64_zero |},
       snd (log (ZapError msg) w)).
Proof.
  intros Hb. destruct Hb as [vm s rest src err Hs Hsrc Hdec].
  unfold decodeSource in Hdec.
  cbn [rangeHits]. go_run. rewrite Hs. go_run. rewrite Hsrc. go_run.
  destruct (Marshal src) as [jsonBody|].
  - rewrite Hdec. eexists. reflexivity.
  - eexists. reflexivity.
Qed.

Lemma rangeHits_truncated (totalCnt : Z) (pre : list any)
    (sds : list (float64 * User)) (bad : any) (post : list any) :
  HitsDecode pre sds ->
  HitFails bad ->
  forall docs lastSort w,
  exists msg,
    rangeHits totalCnt (pre ++ bad :: post) docs lastSort w
    = (Ret {| Users := docs ++ (snd <$> sds); TotalCount := totalCnt;
              LastSort := f64_zero |},
       snd (log (ZapError msg) w)).
Proof.
  intros Hpre Hbad.
  induction Hpre as [|v [s d] pre sds Hv _ IH]; intros docs lastSort w.
  - rewrite app_nil_l, fmap_nil, app_nil_r. by apply rangeHits_fails.
  - rewrite <- app_comm_cons.
    rewrite (rangeHits_step _ _ _ _ _ _ _ _ Hv). cbn [fst snd].
    destruct (IH (docs ++ [d]) s w) as [msg Hmsg].
    exists msg. rewrite Hmsg, fmap_cons, <- app_assoc. reflexivity.
Qed.

(** The loop returns or panics: it never exits the process and needs no
    fuel. *)
Lemma rangeHits_outcome (totalCnt : Z) (hits : list any) :
  forall docs lastSort w,
    (exists sr, fst (rangeHits totalCnt hits docs lastSort w) = Ret sr) \/
    (exists msg, fst (rangeHits totalCnt hits docs lastSort w) = Panic msg).
Proof.
  induction hits as [|v rest IH]; intros docs lastSort w; cbn [rangeHits].
  - left. eauto.
  - unfold bind.
    destruct v as [| | | | |vm]; cbn; eauto.
    destruct (index vm "sort") as [| | | |srt|]; cbn; eauto.
    destruct srt as [|s0 srt]; cbn; eauto.
    destruct s0 as [| |s| | |]; cbn; eauto.
    destruct (index vm "_source") as [| | | | |src]; cbn; eauto.
    destruct (Marshal src) as [jsonBody|]; cbn; eauto.
    destruct (UnmarshalUser jsonBody) as [doc|]; cbn; eauto.
Qed.

(** The loop only writes to the log. *)
Lemma rangeHits_issued (totalCnt : Z) (hits : list any) :
  forall docs lastSort w,
    issued (snd (rangeHits totalCnt hits docs lastSort w)) = issued w.
Proof.
  induction hits as [|v rest IH]; intros docs lastSort w; cbn [rangeHits].
  - reflexivity.
  - unfold bind.
    destruct v as [| | | | |vm]; cbn; eauto.
    destruct (index vm "sort") as [| | | |srt|]; cbn; eauto.
    destruct srt as [|s0 srt]; cbn; eauto.
    destruct s0 as [| |s| | |]; cbn; eauto.
    destruct (index vm "_source") as [| | | | |src]; cbn; eauto.
    destruct (Marshal src) as [jsonBody|]; cbn; eauto.
    destruct (UnmarshalUser jsonBody) as [doc|]; cbn; eauto.
Qed.

(** ** The closure that turns the envelope into a SearchResult *)

Lemma Load_result_zero (r : gmap string any) (f : float64) (w : World) :
  hits_total_value r = Some (Float64 f) ->
  int64_of_float64 f = 0 ->
  Load_result r w = (Ret zeroSearchResult, w).
Proof.
  intros Ht Hz. apply hits_total_value_inv in Ht as (h & t & Hh & Ht & Hv).
  unfold Load_result. go_run. rewrite Hh. go_run. rewrite Ht. go_run.
  rewrite Hv. go_run. rewrite Hz. reflexivity.
Qed.

Lemma Load_result_hits (r : gmap string any) (f : float64)
    (hits : list any) (w : World) :
  hits_total_value r = Some (Float64 f) ->
  int64_of_float64 f <> 0 ->
  hits_hits r = Some (Slice hits) ->
  Load_result r w = rangeHits (int64_of_float64 f) hits [] f64_zero w.
Proof.
  intros Ht Hz Hhits.
  apply hits_total_value_inv in Ht as (h & t & Hh & Ht & Hv).
  apply hits_hits_inv in Hhits as (h' & Hh' & Hhits).
  rewrite Hh in Hh'. injection Hh' as <-.
  unfold Load_result. go_run. rewrite Hh. go_run. rewrite Ht. go_run.
  rewrite Hv. go_run.
  destruct (Z.eqb_spec (int64_of_float64 f) 0) as [Heq|_]; [contradiction|].
  rewrite Hhits. go_run. reflexivity.
Qed.

Lemma Load_result_no_total (r : gmap string any) (w : World) :
  (forall f, hits_total_value r <> Some (Float64 f)) ->
  exists msg, Load_result r w = (Panic msg, w).
Proof.
  intros Hno. unfold hits_total_value, field in Hno.
  unfold Load_result. go_run.
  destruct (r !! "hits") as [[| | | | |h]|]; cbn; eauto.
  destruct (h !! "total") as [[| | | | |t]|]; cbn; eauto.
  destruct (t !! "value") as [[| |f| | |]|]; cbn; eauto.
  exfalso. by apply (Hno f).
Qed.

Lemma Load_result_outcome (r : gmap string any) (w : World) :
  (exists sr, fst (Load_result r w) = Ret sr) \/
  (exists msg, fst (Load_result r w) = Panic msg).
Proof.
  unfold Load_result. go_run.
  destruct (r !! "hits") as [[| | | | |h]|]; cbn; eauto.
  destruct (h !! "total") as [[| | | | |t]|]; cbn; eauto.
  destruct (t !! "value") as [[| |f| | |]|]; cbn; eauto.
  destruct (int64_of_float64 f =? 0); cbn; eauto.
  destruct (h !! "hits") as [[| | | |hits|]|]; cbn; eauto.
  apply rangeHits_outcome.
Qed.

Lemma Load_result_issued (r : gmap string any) (w : World) :
  issued (snd (Load_result r w)) = issued w.
Proof.
  unfold Load_result. go_run.
  destruct (r !! "hits") as [[| | | | |h]|]; cbn; eauto.
  destruct (h !! "total") as [[| | | | |t]|]; cbn; eauto.
  destruct (t !! "value") as [[| |f| | |]|]; cbn; eauto.
  destruct (int64_of_float64 f =? 0); cbn; eauto.
  destruct (h !! "hits") as [[| | | |hits|]|]; cbn; eauto.
  apply rangeHits_issued.
Qed.

(** ** Load as a whole *)

Lemma closeBody_issued (res : Response) (w : World) :
  issued (snd (closeBody res w)) = issued w.
Proof. unfold closeBody. destruct (CloseErr res); reflexivity. Qed.

(** On a decoded envelope, [Load] ends the way the closure ends. *)
Lemma Load_receives (c : Client) (index : string) (from size : Z)
    (cursor : float64) (w : World) (res : Response) (r : gmap string any) :
  Receives c index from size cursor w res r ->
  exists w1,
    fst (Load c index from size cursor w)
    = match fst (Load_result r w1) with
      | Ret sr => Ret (sr, None)
      | Panic msg => Panic msg
      | Exit code => Exit code
      | OutOfFuel => OutOfFuel
      end.
Proof.
  intros (buf & Henc & Hsearch & Hok & Hdec).
  unfold Load. rewrite Henc. unfold bind at 1, search.
  destruct (Search (engine w) (LoadRequest c index from size cursor buf))
    as [sr eng] eqn:Hs.
  cbn [fst] in Hsearch. subst sr. rewrite Hok, Hdec.
  exists {| engine := eng;
            issued := issued w ++ [LoadRequest c index from size cursor buf];
            logged := logged w |}.
  unfold defer, bind.
  destruct (Load_result r _) as [[sr|msg|code|] w2]; reflexivity.
Qed.

Lemma Load_receives_ret (c : Client) (index : string) (from size : Z)
    (cursor : float64) (w : World) (res : Response) (r : gmap string any)
    (sr : SearchResult) :
  Receives c index from size cursor w res r ->
  (forall w1, fst (Load_result r w1) = Ret sr) ->
  fst (Load c index from size cursor w) = Ret (sr, None).
Proof.
  intros Hr Hres. destruct (Load_receives _ _ _ _ _ _ _ _ Hr) as [w1 ->].
  by rewrite Hres.
Qed.

Lemma Load_receives_panic (c : Client) (index : string) (from size : Z)
    (cursor : float64) (w : World) (res : Response) (r : gmap string any) :
  Receives c index from size cursor w res r ->
  (forall w1, exists msg, fst (Load_result r w1) = Panic msg) ->
  exists msg, fst (Load c index from size cursor w) = Panic msg.
Proof.
  intros Hr Hres. destruct (Load_receives _ _ _ _ _ _ _ _ Hr) as [w1 ->].
  destruct (Hres w1) as [msg ->]. eauto.
Qed.

Lemma Load_issued (c : Client) (index : string) (from size : Z)
    (cursor : float64) (w : World) :
  issued (snd (Load c index from size cursor w))
  = issued w ++ LoadIssues c index from size cursor.
Proof.
  unfold Load, LoadIssues.
  destruct (Encode (buildQuery cursor)) as [buf|err]; cbn [ret snd].
  2: by rewrite app_nil_r.
  unfold bind at 1, search.
  destruct (Search (engine w) (LoadRequest c index from size cursor buf))
    as [[res|err] eng]; [|reflexivity].
  unfold defer.
  match goal with |- context [let (o, w1) := ?m ?w0 in _] =>
    destruct (m w0) as [o w2] eqn:Hm end.
  cbn [snd]. rewrite closeBody_issued.
  change (issued w ++ _) with (issued {| engine := eng;
    issued := issued w ++ [LoadRequest c index from size cursor buf];
    logged := logged w |}).
  replace w2 with (snd (o, w2)) by reflexivity. rewrite <- Hm. clear Hm.
  destruct (IsError res).
  - unfold bind, log. destruct (DecodeMap (Body res)); reflexivity.
  - destruct (DecodeMap (Body res)) as [r|err].
    + unfold bind.
      destruct (Load_result r _) as [[sr|msg|code|] w3] eqn:Hr;
        cbn [ret snd];
        replace w3 with (snd (Load_result r {| engine := eng;
          issued := issued w ++ [LoadRequest c index from size cursor buf];
          logged := logged w |})) by (by rewrite Hr);
        apply Load_result_issued.
    + reflexivity.
Qed.

(** [Load] returns or panics. *)
Lemma Load_outcome (c : Client) (index : string) (from size : Z)
    (cursor : float64) (w : World) :
  (exists v, fst (Load c index from size cursor w) = Ret v) \/
  (exists msg, fst (Load c index from size cursor w) = Panic msg).
Proof.
  unfold Load, bind, search, defer, log, ret.
  destruct (Encode (buildQuery cursor)) as [buf|err]; [|left; by eexists].
  destruct (Search (engine w) (LoadRequest c index from size cursor buf))
    as [[res|err] eng]; [|left; by eexists].
  destruct (IsError res).
  - destruct (DecodeMap (Body res)); left; by eexists.
  - destruct (DecodeMap (Body res)) as [r|err]; [|left; by eexists].
    match goal with |- context [Load_result r ?w0] =>
      destruct (Load_result_outcome r w0) as [[sr Hsr]|[msg Hmsg]];
      destruct (Load_result r w0) as [o w3] end; cbn [fst] in *; subst o.
    + left. by eexists.
    + right. by eexists.
Qed.

(** ** Pages that decode in full *)

Lemma HitsDecode_exists (hits : list any) :
  Forall (fun v => exists s d, HitDecodes v s d) hits ->
  exists sds, HitsDecode hits sds.
Proof.
  induction 1 as [|v hits (s & d & Hv) _ (sds & IH)].
  - exists []. constructor.
  - exists ((s, d) :: sds). by constructor.
Qed.

Lemma HitsDecode_last (hits : list any) (sds : list (float64 * User))
    (vm : gmap string any) (s : float64) (rest : list any) :
  HitsDecode hits sds ->
  last hits = Some (Map vm) ->
  vm !! "sort" = Some (Slice (Float64 s :: rest)) ->
  last (fst <$> sds) = Some s.
Proof.
  intros Hd Hlast Hs.
  rewrite last_lookup in Hlast.
  destruct (Forall2_lookup_l _ _ _ _ _ Hd Hlast) as ([s' d] & Hsd & Hv).
  rewrite last_lookup, length_fmap, list_lookup_fmap.
  rewrite <- (Forall2_length _ _ _ Hd), Hsd. cbn.
  inversion Hv as [vm' s0 rest' src doc Hs' _ _]; subst.
  rewrite Hs in Hs'. by injection Hs' as -> _.
Qed.

Lemma Load_truncated (c : Client) (index : string) (from size : Z)
    (cursor : float64) (w : World) (res : Response) (r : gmap string any)
    (f : float64) (pre : list any) (bad : any) (post : list any)
    (sds : list (float64 * User)) :
  Receives c index from size cursor w res r ->
  hits_total_value r = Some (Float64 f) ->
  int64_of_float64 f <> 0 ->
  hits_hits r = Some (Slice (pre ++ bad :: post)) ->
  HitsDecode pre sds ->
  HitFails bad ->
  fst (Load c index from size cursor w)
  = Ret ({| Users := snd <$> sds; TotalCount := int64_of_float64 f;
            LastSort := f64_zero |}, None).
Proof.
  intros Hr Ht Hnz Hh Hpre Hbad.
  apply (Load_receives_ret _ _ _ _ _ _ _ _ _ Hr). intros w1.
  rewrite (Load_result_hits _ _ _ _ Ht Hnz Hh).
  destruct (rangeHits_truncated (int64_of_float64 f) _ _ _ post Hpre Hbad
              [] f64_zero w1) as [msg ->].
  reflexivity.
Qed.

(** C1, as amended.  For every decoded envelope with a non-zero total and at
    least one entry in hits.hits, all of whose entries decode into a
    document, the Page that [Load] returns reports as its cursor the first
    element of the sort-key array of the last entry. *)
Theorem Load_cursor_of_full_page (c : Client) (index : string)
    (from size : Z) (cursor : float64) (w : World) (res : Response)
    (r : gmap string any) (f : float64) (hits : list any)
    (vm : gmap string any) (s : float64) (rest : list any) :
  Receives c index from size cursor w res r ->
  hits_total_value r = Some (Float64 f) ->
  int64_of_float64 f <> 0 ->
  hits_hits r = Some (Slice hits) ->
  Forall (fun v => exists s d, HitDecodes v s d) hits ->
  last hits = Some (Map vm) ->
  vm !! "sort" = Some (Slice (Float64 s :: rest)) ->
  exists sr,
    fst (Load c index from size cursor w) = Ret (sr, None) /\
    LastSort sr = s /\
    TotalCount sr = int64_of_float64 f /\
    length (Users sr) = length hits.
Proof.
  intros Hr Ht Hnz Hh Hall Hlast Hs.
  destruct (HitsDecode_exists _ Hall) as [sds Hd].
  eexists. split.
  - apply (Load_receives_ret _ _ _ _ _ _ _ _ _ Hr). intros w1.
    rewrite (Load_result_hits _ _ _ _ Ht Hnz Hh).
    rewrite (rangeHits_all _ _ _ Hd). reflexivity.
  - cbn. rewrite (HitsDecode_last _ _ _ _ _ Hd Hlast Hs).
    rewrite length_fmap, (Forall2_length _ _ _ Hd). done.
Qed.

(** C2, as amended.  For every response envelope with a non-zero total in
    which the entries before the Nth decode and the Nth is an object with a
    sort-key array starting with a number and with a [_source] object that
    jsoniter.Marshal or jsoniter.Unmarshal rejects, [Load] returns with no
    error a Page holding exactly the first N-1 documents and the envelope's
    total; whatever follows the Nth entry is not looked at.  (A [_source]
    that is no object is not such a failure: the type assertion on it
    panics, see [Load_non_object_source_panics].) *)
Theorem Load_truncated_page (c : Client) (index : string) (from size : Z)
    (cursor : float64) (w : World) (res : Response) (r : gmap string any)
    (f : float64) (pre : list any) (bad : any) (post : list any)
    (sds : list (float64 * User)) :
  Receives c index from size cursor w res r ->
  hits_total_value r = Some (Float64 f) ->
  int64_of_float64 f <> 0 ->
  hits_hits r = Some (Slice (pre ++ bad :: post)) ->
  HitsDecode pre sds ->
  HitFails bad ->
  exists sr,
    fst (Load c index from size cursor w) = Ret (sr, None) /\
    Users sr = snd <$> sds /\
    TotalCount sr = int64_of_float64 f.
Proof.
  intros Hr Ht Hnz Hh Hpre Hbad.
  eexists. split; [by eapply Load_truncated|]. done.
Qed.

(** C3, as amended.  For every success-status response body whose decoded
    envelope has nothing, or something that is not a number, at
    hits.total.value, [Load] does not return: an unchecked type assertion
    panics, so there is neither an error value nor a Page, and the envelope
    is not taken for one with zero hits. *)
Theorem Load_missing_total_panics (c : Client) (index : string)
    (from size : Z) (cursor : float64) (w : World) (res : Response)
    (r : gmap string any) :
  Receives c index from size cursor w res r ->
  (forall f, hits_total_value r <> Some (Float64 f)) ->
  exists msg, fst (Load c index from size cursor w) = Panic msg.
Proof.
  intros Hr Hno. apply (Load_receives_panic _ _ _ _ _ _ _ _ Hr). intros w1.
  destruct (Load_result_no_total r w1 Hno) as [msg ->]. by exists msg.
Qed.

(** C5.  For every response envelope whose hits.total.value equals zero,
    [Load] returns no error and the empty Page (no documents, zero total,
    zero cursor), whatever else the envelope holds. *)
Theorem Load_zero_total (c : Client) (index : string) (from size : Z)
    (cursor : float64) (w : World) (res : Response) (r : gmap string any)
    (f : float64) :
  Receives c index from size cursor w res r ->
  hits_total_value r = Some (Float64 f) ->
  f64_neq f f64_zero = false ->
  fst (Load c index from size cursor w) = Ret (zeroSearchResult, None).
Proof.
  intros Hr Ht Hz. apply f64_neq_zero_false in Hz as [s ->].
  apply (Load_receives_ret _ _ _ _ _ _ _ _ _ Hr). intros w1.
  by rewrite (Load_result_zero _ _ _ Ht (int64_of_float64_zero s)).
Qed.

Lemma Load_ret_error_inv (c : Client) (index : string) (from size : Z)
    (cursor : float64) (w w' : World) (sr : SearchResult) (err : error) :
  Load c index from size cursor w = (Ret (sr, Some err), w') ->
  sr = zeroSearchResult.
Proof.
  unfold Load, bind, search, defer, log, ret.
  destruct (Encode (buildQuery cursor)) as [buf|e]; [|congruence].
  destruct (Search (engine w) (LoadRequest c index from size cursor buf))
    as [[res|e] eng]; [|congruence].
  destruct (IsError res).
  - destruct (DecodeMap (Body res)); congruence.
  - destruct (DecodeMap (Body res)) as [r|e]; [|congruence].
    destruct (Load_result r _) as [[a|msg|code|] w3]; congruence.
Qed.

(** C9.  Whenever [Load] returns a non-nil error, the SearchResult that
    comes with it is the zero value: no documents, zero total, zero
    cursor. *)
Theorem Load_error_zero_result (c : Client) (index : string) (from size : Z)
    (cursor : float64) (w w' : World) (sr : SearchResult) (err : error) :
  Load c index from size cursor w = (Ret (sr, Some err), w') ->
  sr = zeroSearchResult /\
  Users sr = [] /\ TotalCount sr = 0 /\ LastSort sr = f64_zero.
Proof.
  intros HL. by rewrite (Load_ret_error_inv _ _ _ _ _ _ _ _ _ HL).
Qed.

(** C10.  Whenever [Load] truncates a page because a document does not
    decode, the partial Page carries the unset cursor 0; a call of [Load]
    with that cursor builds the query without search_after and sends the
    from/size request, so the caller starts again at its offset instead of
    resuming behind the last decoded entry. *)
Theorem Load_truncated_page_cursor_unset (c : Client) (index : string)
    (from size : Z) (cursor : float64) (w : World) (res : Response)
    (r : gmap string any) (f : float64) (pre : list any) (bad : any)
    (post : list any) (sds : list (float64 * User)) :
  Receives c index from size cursor w res r ->
  hits_total_value r = Some (Float64 f) ->
  int64_of_float64 f <> 0 ->
  hits_hits r = Some (Slice (pre ++ bad :: post)) ->
  HitsDecode pre sds ->
  HitFails bad ->
  exists sr,
    fst (Load c index from size cursor w) = Ret (sr, None) /\
    LastSort sr = f64_zero /\
    buildQuery (LastSort sr) !! "search_after" = None /\
    forall c' index' from' size' buf,
      WithFrom (LoadRequest c' index' from' size' (LastSort sr) buf)
      = Some from'.
Proof.
  intros Hr Ht Hnz Hh Hpre Hbad.
  eexists. split; [by eapply Load_truncated|]. done.
Qed.

(** C4.  The request [Load] sends carries the encoding of a query with the
    ascending sort on ID, whatever the cursor; when the cursor is not zero
    the query also has search_after seeded with the cursor, the request has
    no from parameter, and the offset argument has no influence on the
    call. *)
Theorem Load_query_shape (c : Client) (index : string) (from size : Z)
    (cursor : float64) (w : World) (req : SearchRequest) :
  issued (snd (Load c index from size cursor w)) = issued w ++ [req] ->
  exists q,
    Encode q = Ok (WithBody req) /\
    q !! "sort" = Some (Slice [Map {[ "ID" := Map {[ "order" := String "asc" ]} ]}]) /\
    (f64_neq cursor f64_zero = true ->
     q !! "search_after" = Some (Slice [Float64 cursor]) /\
     WithFrom req = None /\
     forall from', Load c index from' size cursor w
                   = Load c index from size cursor w).
Proof.
  rewrite Load_issued. intros Hreq. apply app_inv_head in Hreq.
  unfold LoadIssues in Hreq.
  destruct (Encode (buildQuery cursor)) as [buf|e] eqn:Henc; [|discriminate].
  injection Hreq as <-.
  exists (buildQuery cursor). split; [|split].
  - rewrite Henc. unfold LoadRequest.
    by destruct (f64_neq cursor f64_zero).
  - unfold buildQuery. by destruct (f64_neq cursor f64_zero).
  - intros Hc. unfold Load, LoadRequest, buildQuery. rewrite Hc.
    repeat split; reflexivity.
Qed.

(** ** The offset loop *)

Lemma pageCount_spec (bound size : Z) (k : nat) :
  0 < size ->
  (Z.of_nat k * size <? bound) = true <-> (k < pageCount bound size)%nat.
Proof.
  intros Hsize. unfold pageCount. rewrite Z.ltb_lt.
  pose proof (Z.mul_div_le (bound + size - 1) size Hsize) as Hlo.
  pose proof (Z.mul_succ_div_gt (bound + size - 1) size Hsize) as Hhi.
  set (n := (bound + size - 1) / size) in *.
  split; intros Hk.
  - assert (Z.of_nat k < n) by nia. lia.
  - assert (Z.of_nat k < n) by lia. nia.
Qed.

Lemma offset_next (bound size : Z) (k : nat) :
  0 < size -> bound + size <= max_int64 ->
  (Z.of_nat k * size <? bound) = true ->
  wrap64 (Z.of_nat k * size + size) = Z.of_nat (S k) * size.
Proof.
  intros Hsize Hmax Hk. apply Z.ltb_lt in Hk.
  rewrite wrap64_id; [lia|]. unfold min_int64, max_int64 in *. nia.
Qed.

Lemma Fetched_length (c : Client) (index : string) (size : Z)
    (w w' : World) (offs : list Z) (pages : list SearchResult) :
  Fetched c index size w offs pages w' -> length pages = length offs.
Proof. induction 1; cbn; congruence. Qed.

Lemma offsetStep_ret (c : Client) (index : string) (size i : Z)
    (acc result : list User) (w w' : World) :
  offsetStep c index size i acc w = (Ret result, w') <->
  exists page,
    Load c index i size f64_zero w = (Ret (page, None), w') /\
    result = acc ++ Users page.
Proof.
  unfold offsetStep, bind, Fatalf, ret.
  destruct (Load c index i size f64_zero w)
    as [[[page [err|]]|msg|code|] w1];
    (split; [intros Hp | intros (page' & Hp & ->)]); try discriminate.
  - injection Hp as <- <-. eauto.
  - by injection Hp as <- <-.
Qed.

Lemma offsetStep_fuel (c : Client) (index : string) (size i : Z)
    (acc : list User) (w : World) :
  fst (offsetStep c index size i acc w) <> OutOfFuel.
Proof.
  unfold offsetStep, bind, Fatalf, ret.
  destruct (Load_outcome c index i size f64_zero w) as [[v Hv]|[msg Hv]];
    destruct (Load c index i size f64_zero w) as [o w1];
    cbn [fst] in Hv; subst o; [destruct v as [res [err|]]|]; discriminate.
Qed.

(** A fetch that returns without error has sent one request, with the
    offset as its from parameter. *)
Lemma Load_offset_issued (c : Client) (index : string) (size i : Z)
    (w w1 : World) (page : SearchResult) :
  Load c index i size f64_zero w = (Ret (page, None), w1) ->
  exists req, issued w1 = issued w ++ [req] /\ WithFrom req = Some i.
Proof.
  intros HL. pose proof (Load_issued c index i size f64_zero w) as Hi.
  rewrite HL in Hi. cbn [snd] in Hi. rewrite Hi. clear Hi.
  unfold LoadIssues. unfold Load in HL.
  destruct (Encode (buildQuery f64_zero)) as [buf|e]; [|discriminate].
  eexists. split; reflexivity.
Qed.

Section OffsetLoop.
Variables (c : Client) (index : string) (size bound : Z).
Hypothesis Hsize : 0 < size.
Hypothesis Hmax : bound + size <= max_int64.

Local Abbreviation offsetsFrom := (offsetsFrom size).

(** The loop of [offsetPagination], entered at offset [k * size]. *)
Local Abbreviation loop fuel k :=
  (forLoop fuel (fun i => i <? bound) (fun i => wrap64 (i + size))
     (offsetStep c index size) (Z.of_nat k * size)).

Lemma offsetLoop_done (fuel k : nat) (acc : list User) (w : World) :
  (k + 0 = pageCount bound size)%nat ->
  loop (S fuel) k acc w = (Ret acc, w).
Proof using Hsize.
  intros Hk. cbn [forLoop].
  destruct (Z.of_nat k * size <? bound) eqn:Hc; [|reflexivity].
  apply pageCount_spec in Hc; [lia|done].
Qed.

Lemma offsetLoop_step (fuel k m : nat) (acc : list User) (w : World) :
  (k + S m = pageCount bound size)%nat ->
  loop (S fuel) k acc w
  = bind (offsetStep c index size (Z.of_nat k * size) acc)
      (loop fuel (S k)) w.
Proof using Hsize Hmax.
  intros Hk. cbn [forLoop].
  assert ((Z.of_nat k * size <? bound) = true) as Hc
    by (apply pageCount_spec; [done|lia]).
  rewrite Hc, (offset_next bound size k Hsize Hmax Hc). reflexivity.
Qed.

Lemma offsetLoop_fuel (m : nat) :
  forall k fuel acc w,
    (k + m = pageCount bound size)%nat -> (m < fuel)%nat ->
    fst (loop fuel k acc w) <> OutOfFuel.
Proof using Hsize Hmax.
  induction m as [|m IH]; intros k fuel acc w Hk Hfuel;
    (destruct fuel as [|fuel]; [lia|]).
  - by rewrite offsetLoop_done.
  - rewrite (offsetLoop_step _ _ m) by done. unfold bind.
    pose proof (offsetStep_fuel c index size (Z.of_nat k * size) acc w) as Hs.
    destruct (offsetStep c index size (Z.of_nat k * size) acc w)
      as [[acc1|msg|code|] w1]; cbn [fst] in *; try done.
    apply IH; lia.
Qed.

Lemma offsetLoop_returns (m : nat) :
  forall k fuel acc w result w',
    (k + m = pageCount bound size)%nat -> (m < fuel)%nat ->
    loop fuel k acc w = (Ret result, w') ->
    exists pages reqs,
      Fetched c index size w (offsetsFrom k m) pages w' /\
      result = acc ++ concat (Users <$> pages) /\
      issued w' = issued w ++ reqs /\
      WithFrom <$> reqs = Some <$> offsetsFrom k m.
Proof using Hsize Hmax.
  induction m as [|m IH]; intros k fuel acc w result w' Hk Hfuel;
    (destruct fuel as [|fuel]; [lia|]).
  - rewrite offsetLoop_done by done. intros [= <- <-].
    exists [], []. rewrite !app_nil_r. repeat split. constructor.
  - rewrite (offsetLoop_step _ _ m) by done. unfold bind.
    destruct (offsetStep c index size (Z.of_nat k * size) acc w)
      as [[acc1|msg|code|] w1] eqn:Hstep; try discriminate.
    intros Hloop.
    apply offsetStep_ret in Hstep as (page & HL & ->).
    apply IH in Hloop as (pages & reqs & HF & -> & Hi & Hfrom); [|lia..].
    destruct (Load_offset_issued _ _ _ _ _ _ _ HL) as (req & Hreq & Hf).
    exists (page :: pages), (req :: reqs). repeat split.
    + by econstructor.
    + cbn. by rewrite <- app_assoc.
    + rewrite Hi, Hreq, <- app_assoc. reflexivity.
    + unfold offsetsFrom in *. cbn. by rewrite Hf, Hfrom.
Qed.

Lemma offsetLoop_fetched (m : nat) :
  forall k fuel acc w pages w',
    (k + m = pageCount bound size)%nat -> (m < fuel)%nat ->
    Fetched c index size w (offsetsFrom k m) pages w' ->
    loop fuel k acc w = (Ret (acc ++ concat (Users <$> pages)), w').
Proof using Hsize Hmax.
  induction m as [|m IH]; intros k fuel acc w pages w' Hk Hfuel HF;
    (destruct fuel as [|fuel]; [lia|]).
  - rewrite offsetLoop_done by done.
    inversion HF; subst. cbn. by rewrite app_nil_r.
  - rewrite (offsetLoop_step _ _ m) by done.
    unfold offsetsFrom in HF. cbn in HF.
    inversion HF as [|? ? page w1 ? pages' ? HL HF']; subst.
    assert (offsetStep c index size (Z.of_nat k * size) acc w
            = (Ret (acc ++ Users page), w1)) as Hstep
      by (apply offsetStep_ret; eauto).
    unfold bind. rewrite Hstep.
    rewrite (IH (S k) fuel _ w1 pages' w'); [|lia..|done].
    cbn. by rewrite <- app_assoc.
Qed.

End OffsetLoop.

(** C6.  For every bound and every page size greater than zero (with
    [bound + size] inside the range of [int]), the offset loop, given fuel
    for its [ceil(bound / size)] rounds, does not run out of it; when it
    returns it has sent exactly [ceil(bound / size)] requests, at the
    offsets 0, size, 2 size, ..., and its result is the concatenation of
    the pages' document lists in fetch order, so its length is the sum of
    theirs; and it does return whenever every one of these fetches returns
    without error. *)
Theorem offsetPagination_pages (fuel : nat) (c : Client) (index : string)
    (size bound : Z) (w : World) :
  0 < size ->
  bound + size <= max_int64 ->
  (pageCount bound size < fuel)%nat ->
  fst (offsetPagination fuel c index 0 size bound w) <> OutOfFuel /\
  (forall result w',
     offsetPagination fuel c index 0 size bound w = (Ret result, w') ->
     exists pages reqs,
       Fetched c index size w (pageOffsets bound size) pages w' /\
       issued w' = issued w ++ reqs /\
       length reqs = pageCount bound size /\
       WithFrom <$> reqs = Some <$> pageOffsets bound size /\
       length pages = pageCount bound size /\
       result = concat (Users <$> pages) /\
       length result = sum_list (length <$> (Users <$> pages))) /\
  (forall pages w',
     Fetched c index size w (pageOffsets bound size) pages w' ->
     offsetPagination fuel c index 0 size bound w
     = (Ret (concat (Users <$> pages)), w')).
Proof.
  intros Hsize Hmax Hfuel. unfold offsetPagination.
  change 0 with (Z.of_nat 0 * size). split; [|split].
  - by apply (offsetLoop_fuel _ _ _ _ Hsize Hmax (pageCount bound size)).
  - intros result w' Hrun.
    apply (offsetLoop_returns _ _ _ _ Hsize Hmax (pageCount bound size))
      in Hrun as (pages & reqs & HF & -> & Hi & Hfrom); [|done..].
    exists pages, reqs.
    assert (length pages = pageCount bound size) as Hlen.
    { rewrite (Fetched_length _ _ _ _ _ _ _ HF).
      unfold offsetsFrom. by rewrite length_fmap, length_seq. }
    repeat split; try done.
    + apply (f_equal length) in Hfrom. rewrite !length_fmap in Hfrom.
      unfold offsetsFrom in Hfrom.
      by rewrite Hfrom, length_fmap, length_seq.
    + cbn. apply length_concat.
  - intros pages w' HF.
    by rewrite (offsetLoop_fetched _ _ _ _ Hsize Hmax (pageCount bound size)
                  0%nat fuel [] w pages w').
Qed.

(** The function as it is written: ten requests, at the offsets 0 to 90. *)
Lemma loadSimplePagination_requests (fuel : nat) (c : Client)
    (index : string) (w w' : World) (result : list User) :
  (10 < fuel)%nat ->
  loadSimplePagination fuel c index w = (Ret result, w') ->
  exists reqs,
    issued w' = issued w ++ reqs /\
    WithFrom <$> reqs = Some <$> [0; 10; 20; 30; 40; 50; 60; 70; 80; 90].
Proof.
  intros Hfuel Hrun. unfold loadSimplePagination in Hrun.
  change 0 with (Z.of_nat 0 * 10) in Hrun.
  apply (offsetLoop_returns c index 10 100 eq_refl) with (m := 10%nat)
    in Hrun as (pages & reqs & _ & _ & Hi & Hfrom); [|done..].
  by exists reqs.
Qed.

(** ** The cursor loop *)

Lemma forLoop_stops {S : Type} (fuel : nat) (cond : Z -> bool)
    (post : Z -> Z) (body : Z -> S -> M S) (i : Z) (s : S) (w w1 : World)
    (code : Z) :
  cond i = true ->
  body i s w = (Exit code, w1) ->
  forLoop (Datatypes.S fuel) cond post body i s w = (Exit code, w1).
Proof. intros Hc Hb. cbn [forLoop]. rewrite Hc. unfold bind. by rewrite Hb. Qed.

(** An error of a fetch inside the loop ends the process: the loop is left
    by [Exit], nothing more is sent. *)
Lemma cursorPaginate_loop_error_exits (fuel : nat) (c : Client)
    (index : string) (i : Z) (ls : float64) (res : list User)
    (w w1 : World) (sr : SearchResult) (err : error) :
  i < 10 ->
  Load c index 0 10 ls w = (Ret (sr, Some err), w1) ->
  exists w2,
    forLoop (S fuel) (fun i => i <? 10) (fun i => wrap64 (i + 1))
      (cursorStep c index 10) i (ls, res) w = (Exit 1, w2) /\
    issued w2 = issued w1.
Proof.
  intros Hi HL. eexists. split.
  - apply forLoop_stops; [by apply Z.ltb_lt|].
    unfold cursorStep, bind. rewrite HL. reflexivity.
  - reflexivity.
Qed.

(** The error of the first fetch is dropped: the driver enters the loop
    with the zero cursor and no documents. *)
Lemma cursorPaginate_initial_error_ignored (fuel : nat) (c : Client)
    (index : string) (w w1 : World) (sr : SearchResult) (err : error) :
  Load c index 0 10 f64_zero w = (Ret (sr, Some err), w1) ->
  cursorPaginate fuel c index w
  = bind (forLoop fuel (fun i => i <? 10) (fun i => wrap64 (i + 1))
            (cursorStep c index 10) 1 (f64_zero, []))
      (fun s => ret (snd s)) w1.
Proof.
  intros HL. pose proof (Load_ret_error_inv _ _ _ _ _ _ _ _ _ HL) as ->.
  unfold cursorPaginate. unfold bind at 1. rewrite HL. reflexivity.
Qed.

End Properties.

(** * The theorems at work on the scripted engine *)

Section ScriptedRuns.
Import Scripted.

Local Existing Instances codec engineOf platform.

Local Abbreviation response n :=
  {| StatusCode := 200; Body := [n]; CloseErr := None |}.

Local Abbreviation load := (Load client "").
Local Abbreviation replay n := (world [ok200 n]).

Local Ltac receives := eexists; repeat split; reflexivity.

Lemma Load_cursor_of_full_page_witness :
  exists sr,
    fst (load 0 10 f64_zero (replay "002"%byte)) = Ret (sr, None) /\
    LastSort sr = seven /\
    TotalCount sr = int64_of_float64 twentyfive /\
    length (Users sr) = length [good5; good7].
Proof.
  apply (Load_cursor_of_full_page client "" 0 10 f64_zero
           (replay "002"%byte) (response "002"%byte)
           (envelope (Float64 twentyfive) [good5; good7]) twentyfive
           [good5; good7] (hitMap seven (Float64 seven)) seven []).
  - receives.
  - reflexivity.
  - vm_compute. discriminate.
  - reflexivity.
  - repeat constructor.
    + exists five, (userOf 5). by econstructor.
    + exists seven, (userOf 7). by econstructor.
  - reflexivity.
  - reflexivity.
Defined.

(** Against C1 as worded: the first entry does not decode, and the cursor
    of the Page is 0, not the sort key 7 of the last entry. *)
Lemma cursor_is_last_sort_key_counterexample :
  ~ cursor_is_last_sort_key_as_worded client "" 0 10 f64_zero
      (replay "003"%byte).
Proof.
  intros H.
  destruct (H (response "003"%byte) (envelope (Float64 two) [bad5; good7])
              [bad5; good7] (hitMap seven (Float64 seven)) seven [])
    as (sr & Hsr & Hlast); try reflexivity.
  - receives.
  - vm_compute in Hsr. injection Hsr as <-. discriminate Hlast.
Qed.

Lemma Load_truncated_page_witness :
  exists sr,
    fst (load 0 10 f64_zero (replay "004"%byte)) = Ret (sr, None) /\
    Users sr = [userOf 5] /\
    TotalCount sr = int64_of_float64 three.
Proof.
  apply (Load_truncated_page client "" 0 10 f64_zero
           (replay "004"%byte) (response "004"%byte)
           (envelope (Float64 three) [good5; bad7; String "noise"]) three
           [good5] bad7 [String "noise"] [(five, userOf 5)]).
  - receives.
  - reflexivity.
  - vm_compute. discriminate.
  - reflexivity.
  - repeat constructor. by econstructor.
  - by econstructor.
Defined.

(** Against C2 as worded: the total is 0, the second entry does not decode,
    and the Page is empty instead of holding the first document. *)
Lemma truncated_page_counterexample :
  ~ truncated_page_as_worded client "" 0 10 f64_zero (replay "005"%byte).
Proof.
  intros H.
  destruct (H (response "005"%byte)
              (envelope (Float64 f64_zero) [good5; bad7; good7]) f64_zero
              [good5] bad7 [good7] [(five, userOf 5)])
    as (sr & Hsr & Husers & _); try reflexivity.
  - receives.
  - discriminate.
  - repeat constructor. by econstructor.
  - by econstructor.
  - vm_compute in Hsr. injection Hsr as <-. discriminate Husers.
Qed.

(** Beside C2: with total 3 and the entries [good; _source "garbage"; good],
    the second entry does not count as a decode failure; [Load] panics on
    the type assertion and the first document is lost. *)
Lemma Load_non_object_source_panics :
  fst (@Load ScriptedSource.codec _ _ client "" 0 10 f64_zero
         (replay "007"%byte))
  = Panic "interface conversion: interface {} is not map[string]interface {}".
Proof. reflexivity. Qed.

Lemma Load_missing_total_panics_witness :
  exists msg, fst (load 0 10 f64_zero (replay "006"%byte)) = Panic msg.
Proof.
  apply (Load_missing_total_panics client "" 0 10 f64_zero
           (replay "006"%byte) (response "006"%byte)
           (envelope (String "25") [good5])).
  - receives.
  - intros f. vm_compute. discriminate.
Defined.

(** Against C3 as worded: the body is the empty object, and [Load] panics
    where the sentence has it return a decode error. *)
Lemma missing_total_is_error_counterexample :
  ~ missing_total_is_error_as_worded client "" 0 10 f64_zero
      (replay "000"%byte).
Proof.
  intros H.
  destruct (H (response "000"%byte) ∅) as (err & Herr).
  - receives.
  - intros f. vm_compute. discriminate.
  - vm_compute in Herr. discriminate Herr.
Qed.

Lemma Load_zero_total_witness :
  hits_total_value (envelope (Float64 f64_zero) [String "noise"])
    = Some (Float64 f64_zero) /\
  fst (load 0 10 f64_zero (replay "001"%byte)) = Ret (zeroSearchResult, None).
Proof.
  split; [reflexivity|].
  apply (Load_zero_total client "" 0 10 f64_zero
           (replay "001"%byte) (response "001"%byte)
           (envelope (Float64 f64_zero) [String "noise"]) f64_zero).
  - receives.
  - reflexivity.
  - reflexivity.
Defined.

Lemma Load_error_zero_result_witness :
  fst (load 0 10 f64_zero (world []))
    = Ret (zeroSearchResult, Some (ErrSearchResponse "connection refused")) /\
  zeroSearchResult = zeroSearchResult /\
  Users zeroSearchResult = [] /\ TotalCount zeroSearchResult = 0 /\
  LastSort zeroSearchResult = f64_zero.
Proof.
  split; [reflexivity|].
  apply (Load_error_zero_result client "" 0 10 f64_zero (world [])
           (snd (load 0 10 f64_zero (world []))) zeroSearchResult
           (ErrSearchResponse "connection refused")).
  reflexivity.
Defined.

Lemma Load_truncated_page_cursor_unset_witness :
  exists sr,
    fst (load 0 10 seven (replay "003"%byte)) = Ret (sr, None) /\
    LastSort sr = f64_zero /\
    buildQuery (LastSort sr) !! "search_after" = None /\
    forall c' index' from' size' buf,
      WithFrom (LoadRequest c' index' from' size' (LastSort sr) buf)
      = Some from'.
Proof.
  apply (Load_truncated_page_cursor_unset client "" 0 10 seven
           (replay "003"%byte) (response "003"%byte)
           (envelope (Float64 two) [bad5; good7]) two
           [] bad5 [good7] []).
  - receives.
  - reflexivity.
  - vm_compute. discriminate.
  - reflexivity.
  - constructor.
  - by econstructor.
Defined.

Lemma Load_query_shape_witness :
  exists q,
    Encode q = Ok ["c"%byte] /\
    q !! "sort" = Some (Slice [Map {[ "ID" := Map {[ "order" := String "asc" ]} ]}]) /\
    (f64_neq seven f64_zero = true ->
     q !! "search_after" = Some (Slice [Float64 seven]) /\
     WithFrom (LoadRequest client "" 0 10 seven ["c"%byte]) = None /\
     forall from', load from' 10 seven (replay "001"%byte)
                   = load 0 10 seven (replay "001"%byte)).
Proof.
  apply (Load_query_shape client "" 0 10 seven (replay "001"%byte)
           (LoadRequest client "" 0 10 seven ["c"%byte])).
  reflexivity.
Defined.

Lemma offsetPagination_pages_witness :
  (forall result w',
     offsetPagination 4 client "" 0 10 25
       (world [ok200 "002"%byte; ok200 "001"%byte; ok200 "004"%byte])
     = (Ret result, w') ->
     exists pages reqs,
       Fetched client "" 10
         (world [ok200 "002"%byte; ok200 "001"%byte; ok200 "004"%byte])
         (pageOffsets 25 10) pages w' /\
       issued w' = reqs /\
       length reqs = 3%nat /\
       WithFrom <$> reqs = [Some 0; Some 10; Some 20] /\
       length pages = 3%nat /\
       result = concat (Users <$> pages) /\
       length result = sum_list (length <$> (Users <$> pages))) /\
  fst (offsetPagination 4 client "" 0 10 25
         (world [ok200 "002"%byte; ok200 "001"%byte; ok200 "004"%byte]))
  = Ret [userOf 5; userOf 7; userOf 5].
Proof.
  split; [|reflexivity].
  apply (offsetPagination_pages 4 client "" 10 25
           (world [ok200 "002"%byte; ok200 "001"%byte; ok200 "004"%byte]));
    [reflexivity | vm_compute; discriminate | vm_compute; lia].
Defined.

(** C7, at a failing input.  The transport fails on the first fetch; the
    driver drops that error, goes on with the zero cursor, sends the nine
    other requests and returns a result set. *)
Theorem cursorPaginate_initial_error_not_fatal :
  let w := world (Err "connection refused" :: ok200 "002"%byte
                    :: repeat (ok200 "001"%byte) 8) in
  fst (load 0 10 f64_zero w)
    = Ret (zeroSearchResult, Some (ErrSearchResponse "connection refused")) /\
  fst (cursorPaginate 10 client "" w) = Ret [userOf 5; userOf 7] /\
  length (issued (snd (cursorPaginate 10 client "" w))) = 10%nat.
Proof. vm_compute. repeat split. Qed.

End ScriptedRuns.

(** * More properties of Load and of the two drivers *)

Section MoreProperties.
Context `{J : Jsoniter} `{E : Elasticsearch} `{P : Platform}.

(** ** Reading a result of [Load] backwards *)

Lemma index_Some_inv (m : gmap string any) (k : string) (v : any) :
  index m k = v -> v <> Nil -> m !! k = Some v.
Proof.
  unfold index. destruct (m !! k) as [x|]; cbn; intros <- Hv; [done|].
  by destruct Hv.
Qed.

(** Every entry of hits.hits decodes, fails softly, or makes the loop
    panic. *)
Lemma rangeHits_cons_inv (totalCnt : Z) (v : any) (rest : list any)
    (docs : list User) (lastSort : float64) (w w' : World)
    (sr : SearchResult) :
  rangeHits totalCnt (v :: rest) docs lastSort w = (Ret sr, w') ->
  (exists s doc, HitDecodes v s doc /\
     rangeHits totalCnt rest (docs ++ [doc]) s w = (Ret sr, w')) \/
  (HitFails v /\
   sr = {| Users := docs; TotalCount := totalCnt; LastSort := f64_zero |}).
Proof.
  cbn [rangeHits]. go_run.
  destruct v as [| | | | |vm]; try discriminate.
  destruct (vm !! "sort") as [[| | | |[|[| |s| | |] srt]|]|] eqn:Hs;
    try discriminate.
  destruct (vm !! "_source") as [[| | | | |src]|] eqn:Hsrc; try discriminate.
  cbn [from_option id]. cbv beta iota.
  destruct (Marshal src) as [jsonBody|err] eqn:Hm.
  - destruct (UnmarshalUser jsonBody) as [doc|err] eqn:Hu.
    + intros Hrest. left. exists s, doc. split; [|done].
      econstructor; [done..|]. unfold decodeSource. by rewrite Hm.
    + unfold log. intros [= <- _]. right. split; [|done].
      econstructor; [done..|]. unfold decodeSource. by rewrite Hm, Hu.
  - unfold log. intros [= <- _]. right. split; [|done].
    econstructor; [done..|]. unfold decodeSource. by rewrite Hm.
Qed.

Lemma rangeHits_inv (totalCnt : Z) (hits : list any) :
  forall docs lastSort w w' sr,
    rangeHits totalCnt hits docs lastSort w = (Ret sr, w') ->
    TotalCount sr = totalCnt /\
    ((exists sds, HitsDecode hits sds /\
        Users sr = docs ++ (snd <$> sds) /\
        LastSort sr = default lastSort (last (fst <$> sds))) \/
     (exists pre bad post sds,
        hits = pre ++ bad :: post /\ HitsDecode pre sds /\ HitFails bad /\
        Users sr = docs ++ (snd <$> sds) /\ LastSort sr = f64_zero)).
Proof.
  induction hits as [|v rest IH]; intros docs lastSort w w' sr Hrun.
  - cbn in Hrun. injection Hrun as <- _. split; [done|]. left.
    exists []. split; [constructor|]. cbn. by rewrite app_nil_r.
  - apply rangeHits_cons_inv in Hrun
      as [(s & doc & Hv & Hrest)|(Hbad & ->)].
    + apply IH in Hrest as (Ht & Hcases). split; [done|].
      destruct Hcases as [(sds & Hd & Hu & Hl)
                         |(pre & bad & post & sds & -> & Hd & Hb & Hu & Hl)].
      * left. exists ((s, doc) :: sds). split; [by constructor|].
        rewrite !fmap_cons, default_last_cons, Hu, Hl, <- app_assoc. done.
      * right. exists (v :: pre), bad, post, ((s, doc) :: sds).
        split; [done|]. split; [by constructor|].
        rewrite fmap_cons, Hu, <- app_assoc. done.
    + split; [done|]. right. exists [], v, rest, [].
      split; [done|]. split; [constructor|]. cbn. by rewrite app_nil_r.
Qed.

Lemma Load_result_inv (r : gmap string any) (w w' : World)
    (sr : SearchResult) :
  Load_result r w = (Ret sr, w') ->
  exists f,
    hits_total_value r = Some (Float64 f) /\
    ((int64_of_float64 f = 0 /\ sr = zeroSearchResult) \/
     (int64_of_float64 f <> 0 /\
      exists hits,
        hits_hits r = Some (Slice hits) /\
        rangeHits (int64_of_float64 f) hits [] f64_zero w = (Ret sr, w'))).
Proof.
  unfold Load_result, hits_total_value, hits_hits, field. go_run.
  destruct (r !! "hits") as [[| | | | |h]|]; try discriminate.
  cbn [from_option id]. cbv beta iota.
  destruct (h !! "total") as [[| | | | |t]|]; try discriminate.
  cbn [from_option id]. cbv beta iota.
  destruct (t !! "value") as [[| |f| | |]|]; try discriminate.
  cbn [from_option id]. cbv beta iota.
  destruct (Z.eqb_spec (int64_of_float64 f) 0) as [Hz|Hnz].
  - intros [= <- _]. exists f. split; [done|]. by left.
  - destruct (h !! "hits") as [[| | | |hits|]|]; try discriminate.
    cbn [from_option id]. cbv beta iota.
    intros Hrun. exists f. split; [done|]. right. split; [done|].
    by exists hits.
Qed.

Lemma Load_ok_inv (c : Client) (index : string) (from size : Z)
    (cursor : float64) (w w' : World) (sr : SearchResult) :
  Load c index from size cursor w = (Ret (sr, None), w') ->
  exists res r w1 w2,
    Receives c index from size cursor w res r /\
    Load_result r w1 = (Ret sr, w2).
Proof.
  unfold Load, bind, search, defer, log, ret.
  destruct (Encode (buildQuery cursor)) as [buf|e] eqn:Henc; [|congruence].
  destruct (Search (engine w) (LoadRequest c index from size cursor buf))
    as [[res|e] eng] eqn:Hs; [|congruence].
  destruct (IsError res) eqn:Hok.
  - destruct (DecodeMap (Body res)); congruence.
  - destruct (DecodeMap (Body res)) as [r|e] eqn:Hdec; [|congruence].
    destruct (Load_result r _) as [[a|msg|code|] w3] eqn:Hr; try congruence.
    intros [= <- _]. exists res, r. do 2 eexists. split; [|exact Hr].
    exists buf. rewrite Hs. done.
Qed.

(** ** What a returned Page tells *)

(** X1.  When [Load] returns a nil error, the engine has answered its
    request with a status of at most 299, the body has decoded to an
    envelope with a number at hits.total.value, and the TotalCount of the
    Page is that number converted to int64. *)
Theorem Load_nil_error_inv (c : Client) (index : string) (from size : Z)
    (cursor : float64) (w w' : World) (sr : SearchResult) :
  Load c index from size cursor w = (Ret (sr, None), w') ->
  exists res r f,
    Receives c index from size cursor w res r /\
    StatusCode res <= 299 /\
    hits_total_value r = Some (Float64 f) /\
    TotalCount sr = int64_of_float64 f.
Proof.
  intros HL. apply Load_ok_inv in HL as (res & r & w1 & w2 & Hr & Hres).
  apply Load_result_inv in Hres as (f & Hf & Hcases).
  exists res, r, f. split; [done|]. split.
  - destruct Hr as (buf & _ & _ & Hok & _). unfold IsError in Hok.
    by apply Z.ltb_ge in Hok.
  - split; [done|].
    destruct Hcases as [[Hz ->]|(Hnz & hits & _ & Hrun)]; [by rewrite Hz|].
    by apply rangeHits_inv in Hrun as [-> _].
Qed.

(** X2.  A Page that comes back with a cursor other than zero is complete:
    every entry of hits.hits has been decoded, the documents of the Page are
    these, in order, and the cursor is the sort key of the last entry. *)
Theorem Load_nonzero_cursor_complete (c : Client) (index : string)
    (from size : Z) (cursor : float64) (w w' : World) (sr : SearchResult) :
  Load c index from size cursor w = (Ret (sr, None), w') ->
  f64_neq (LastSort sr) f64_zero = true ->
  exists res r hits sds,
    Receives c index from size cursor w res r /\
    hits_hits r = Some (Slice hits) /\
    HitsDecode hits sds /\
    Users sr = snd <$> sds /\
    last (fst <$> sds) = Some (LastSort sr).
Proof.
  intros HL Hnz. apply Load_ok_inv in HL as (res & r & w1 & w2 & Hr & Hres).
  apply Load_result_inv in Hres as (f & Hf & Hcases).
  destruct Hcases as [[_ ->]|(_ & hits & Hh & Hrun)]; [discriminate|].
  apply rangeHits_inv in Hrun as (_ & Hcases).
  destruct Hcases as [(sds & Hd & Hu & Hl)|(? & ? & ? & ? & _ & _ & _ & _ & Hl)];
    [|rewrite Hl in Hnz; discriminate].
  exists res, r, hits, sds. repeat split; try done.
  destruct (last (fst <$> sds)) as [s|]; cbn in Hl; [by rewrite Hl|].
  rewrite Hl in Hnz. discriminate.
Qed.

(** X3.  When every entry of hits.hits decodes and the total is not zero,
    the Page holds the decoded documents of all entries, in the order of
    hits.hits, with the envelope's total. *)
Theorem Load_full_page_documents (c : Client) (index : string)
    (from size : Z) (cursor : float64) (w : World) (res : Response)
    (r : gmap string any) (f : float64) (hits : list any)
    (sds : list (float64 * User)) :
  Receives c index from size cursor w res r ->
  hits_total_value r = Some (Float64 f) ->
  int64_of_float64 f <> 0 ->
  hits_hits r = Some (Slice hits) ->
  HitsDecode hits sds ->
  fst (Load c index from size cursor w)
  = Ret ({| Users := snd <$> sds; TotalCount := int64_of_float64 f;
            LastSort := default f64_zero (last (fst <$> sds)) |}, None).
Proof.
  intros Hr Ht Hnz Hh Hd.
  apply (Load_receives_ret _ _ _ _ _ _ _ _ _ Hr). intros w1.
  rewrite (Load_result_hits _ _ _ _ Ht Hnz Hh).
  by rewrite (rangeHits_all _ _ _ Hd).
Qed.

(** X4.  An envelope that reports a total other than zero but has no entry
    in hits.hits (a page past the end of the data) gives a Page without
    documents, with that total and with the cursor 0; a call of [Load] with
    that cursor is an offset request again. *)
Theorem Load_empty_hits_resets_cursor (c : Client) (index : string)
    (from size : Z) (cursor : float64) (w : World) (res : Response)
    (r : gmap string any) (f : float64) :
  Receives c index from size cursor w res r ->
  hits_total_value r = Some (Float64 f) ->
  int64_of_float64 f <> 0 ->
  hits_hits r = Some (Slice []) ->
  exists sr,
    fst (Load c index from size cursor w) = Ret (sr, None) /\
    Users sr = [] /\
    TotalCount sr = int64_of_float64 f /\
    LastSort sr = f64_zero /\
    forall c' index' from' size' buf,
      WithFrom (LoadRequest c' index' from' size' (LastSort sr) buf)
      = Some from'.
Proof.
  intros Hr Ht Hnz Hh. eexists. split.
  - apply (Load_receives_ret _ _ _ _ _ _ _ _ _ Hr). intros w1.
    by rewrite (Load_result_hits _ _ _ _ Ht Hnz Hh).
  - done.
Qed.

Lemma rangeHits_malformed (totalCnt : Z) (pre : list any)
    (sds : list (float64 * User)) (v : any) (post : list any) :
  HitsDecode pre sds ->
  (forall s d, ~ HitDecodes v s d) ->
  ~ HitFails v ->
  forall docs lastSort w,
    exists msg,
      fst (rangeHits totalCnt (pre ++ v :: post) docs lastSort w) = Panic msg.
Proof.
  intros Hpre Hnd Hnf.
  induction Hpre as [|x [s d] pre sds Hx _ IH]; intros docs lastSort w.
  - rewrite app_nil_l.
    destruct (rangeHits_outcome totalCnt (v :: post) docs lastSort w)
      as [[sr Hsr]|Hpanic]; [|done].
    destruct (rangeHits totalCnt (v :: post) docs lastSort w) as [o w'] eqn:Hrun.
    cbn [fst] in Hsr. subst o.
    apply rangeHits_cons_inv in Hrun as [(s & d & Hv & _)|[Hv _]].
    + by destruct (Hnd s d).
    + by destruct Hnf.
  - rewrite <- app_comm_cons, (rangeHits_step _ _ _ _ _ _ _ _ Hx). apply IH.
Qed.

(** X5.  With a total other than zero, an entry of hits.hits that neither
    decodes nor fails in its [_source] (it is no object, or has no sort
    array starting with a number, or no [_source] object) makes [Load]
    panic: no Page comes back, and the documents decoded before that entry
    are lost. *)
Theorem Load_malformed_hit_panics (c : Client) (index : string)
    (from size : Z) (cursor : float64) (w : World) (res : Response)
    (r : gmap string any) (f : float64) (pre : list any) (v : any)
    (post : list any) (sds : list (float64 * User)) :
  Receives c index from size cursor w res r ->
  hits_total_value r = Some (Float64 f) ->
  int64_of_float64 f <> 0 ->
  hits_hits r = Some (Slice (pre ++ v :: post)) ->
  HitsDecode pre sds ->
  (forall s d, ~ HitDecodes v s d) ->
  ~ HitFails v ->
  exists msg, fst (Load c index from size cursor w) = Panic msg.
Proof.
  intros Hr Ht Hnz Hh Hpre Hnd Hnf.
  apply (Load_receives_panic _ _ _ _ _ _ _ _ Hr). intros w1.
  rewrite (Load_result_hits _ _ _ _ Ht Hnz Hh).
  by apply (rangeHits_malformed _ _ sds).
Qed.

(** ** What [Load] sends *)

(** X6.  [Load] sends at most one request.  It sends none exactly when the
    query does not encode, and then it returns the encoding error with the
    zero SearchResult and leaves the engine and the log untouched. *)
Theorem Load_sends_at_most_one (c : Client) (index : string) (from size : Z)
    (cursor : float64) (w : World) :
  exists reqs,
    issued (snd (Load c index from size cursor w)) = issued w ++ reqs /\
    (length reqs <= 1)%nat /\
    (reqs = [] <-> exists err, Encode (buildQuery cursor) = Err err) /\
    (forall err,
       Encode (buildQuery cursor) = Err err ->
       Load c index from size cursor w
       = (Ret (zeroSearchResult,
               Some (ErrEncodingQuery (buildQuery cursor) err)), w)).
Proof.
  exists (LoadIssues c index from size cursor).
  split; [apply Load_issued|]. unfold LoadIssues, Load.
  destruct (Encode (buildQuery cursor)) as [buf|e].
  - repeat split; try discriminate; cbn; [lia|]. by intros [err ?].
  - repeat split; cbn; try lia; eauto. by intros err [= ->].
Qed.

(** X7.  The request [Load] sends goes to the index it was given, or to the
    default index of the client when that name is empty, and carries the
    size of the call and the timeout and the total-hits flag of the client;
    with a zero cursor it carries the offset of the call. *)
Theorem Load_request_parameters (c : Client) (index : string)
    (from size : Z) (cursor : float64) (w : World) (req : SearchRequest) :
  issued (snd (Load c index from size cursor w)) = issued w ++ [req] ->
  WithIndex req = (if decide (index = "") then defaultIndex c else index) /\
  WithSize req = size /\
  WithTimeout req = maxSearchQueryTimeout c /\
  WithTrackTotalHits req = isTrackTotalHits c /\
  WithPretty req = true /\
  (f64_neq cursor f64_zero = false -> WithFrom req = Some from).
Proof.
  rewrite Load_issued. intros Hreq. apply app_inv_head in Hreq.
  unfold LoadIssues in Hreq.
  destruct (Encode (buildQuery cursor)) as [buf|e]; [|discriminate].
  injection Hreq as <-. unfold LoadRequest.
  destruct (f64_neq cursor f64_zero); repeat split; done.
Qed.

(** X8.  A cursor of negative zero counts as unset: [Load] does with it
    what it does with the cursor 0. *)
Theorem Load_negative_zero_cursor (c : Client) (index : string)
    (from size : Z) (s : bool) :
  Load c index from size (S754_zero s) = Load c index from size f64_zero.
Proof. by destruct s. Qed.

(** ** The cursor loop, page by page *)

Lemma cursorStep_ret (c : Client) (index : string) (size i : Z)
    (ls ls' : float64) (res res' : list User) (w w' : World) :
  cursorStep c index size i (ls, res) w = (Ret (ls', res'), w') <->
  exists page w1,
    Load c index 0 size ls w = (Ret (page, None), w1) /\
    ls' = LastSort page /\ res' = res ++ Users page /\
    w' = snd (log (StdPrintf "current cursor: %v\n" (LastSort page)) w1).
Proof.
  unfold cursorStep, bind, Fatalf, log, ret.
  destruct (Load c index 0 size ls w) as [[[page [err|]]|msg|code|] w1];
    (split; [intros Hp | intros (page' & w1' & Hp & -> & -> & ->)]);
    try discriminate.
  - injection Hp as <- <- <-. by exists page, w1.
  - by injection Hp as <- <-.
Qed.

Lemma cursorStep_fuel (c : Client) (index : string) (size i : Z)
    (s : float64 * list User) (w : World) :
  fst (cursorStep c index size i s w) <> OutOfFuel.
Proof.
  destruct s as [ls res]. unfold cursorStep, bind, Fatalf, log, ret.
  destruct (Load_outcome c index 0 size ls w) as [[v Hv]|[msg Hv]];
    destruct (Load c index 0 size ls w) as [o w1];
    cbn [fst] in Hv; subst o; [destruct v as [res2 [err|]]|]; discriminate.
Qed.

Section CursorLoop.
Variables (c : Client) (index : string).

(** The loop of [cursorPaginate], entered with the counter at [i]. *)
Local Abbreviation cloop fuel start :=
  (forLoop fuel (fun i => i <? 10) (fun i => wrap64 (i + 1))
     (cursorStep c index 10) start).

Lemma cursorLoop_done (fuel : nat) (s : float64 * list User) (w : World) :
  cloop (S fuel) 10 s w = (Ret s, w).
Proof. reflexivity. Qed.

Lemma cursorLoop_step (fuel : nat) (i : Z) (s : float64 * list User)
    (w : World) :
  1 <= i < 10 ->
  cloop (S fuel) i s w
  = bind (cursorStep c index 10 i s) (cloop fuel (i + 1)) w.
Proof.
  intros Hi. cbn [forLoop].
  assert ((i <? 10) = true) as -> by (apply Z.ltb_lt; lia).
  rewrite wrap64_id; [done|]. unfold min_int64, max_int64. lia.
Qed.

Lemma cursorLoop_fuel (m : nat) :
  forall i fuel s w,
    i = 10 - Z.of_nat m -> 1 <= i -> (m < fuel)%nat ->
    fst (cloop fuel i s w) <> OutOfFuel.
Proof.
  induction m as [|m IH]; intros i fuel s w -> Hi Hfuel;
    (destruct fuel as [|fuel]; [lia|]).
  - done.
  - rewrite cursorLoop_step by lia. unfold bind.
    pose proof (cursorStep_fuel c index 10 (10 - Z.of_nat (S m)) s w) as Hs.
    destruct (cursorStep c index 10 (10 - Z.of_nat (S m)) s w)
      as [[s1|msg|code|] w1]; cbn [fst] in *; try done.
    apply IH; lia.
Qed.

Lemma cursorLoop_returns (m : nat) :
  forall i fuel ls acc w s w',
    i = 10 - Z.of_nat m -> 1 <= i -> (m < fuel)%nat ->
    cloop fuel i (ls, acc) w = (Ret s, w') ->
    exists pages,
      Chained c index 10 w ls pages w' /\
      length pages = m /\
      snd s = acc ++ concat (Users <$> pages).
Proof.
  induction m as [|m IH]; intros i fuel ls acc w s w' -> Hi Hfuel;
    (destruct fuel as [|fuel]; [lia|]).
  - rewrite cursorLoop_done. intros [= <- <-]. exists []. cbn.
    rewrite app_nil_r. repeat split. constructor.
  - rewrite cursorLoop_step by lia. unfold bind.
    destruct (cursorStep c index 10 (10 - Z.of_nat (S m)) (ls, acc) w)
      as [[[ls1 acc1]|msg|code|] w1] eqn:Hstep; try discriminate.
    intros Hloop.
    apply cursorStep_ret in Hstep as (page & w0 & HL & -> & -> & ->).
    apply IH in Hloop as (pages & HC & Hlen & ->); [|lia..].
    exists (page :: pages). repeat split.
    + by econstructor.
    + cbn. by rewrite Hlen.
    + cbn. by rewrite <- app_assoc.
Qed.

Lemma cursorLoop_chained (m : nat) :
  forall i fuel ls acc w pages w',
    i = 10 - Z.of_nat m -> 1 <= i -> (m < fuel)%nat ->
    Chained c index 10 w ls pages w' ->
    length pages = m ->
    exists ls',
      cloop fuel i (ls, acc) w
      = (Ret (ls', acc ++ concat (Users <$> pages)), w').
Proof.
  induction m as [|m IH]; intros i fuel ls acc w pages w' -> Hi Hfuel HC Hlen;
    (destruct fuel as [|fuel]; [lia|]).
  - destruct pages; [|discriminate]. inversion HC; subst.
    exists ls. rewrite cursorLoop_done. cbn. by rewrite app_nil_r.
  - destruct HC as [|w ls page w1 pages w' HL HC]; [discriminate|].
    rewrite cursorLoop_step by lia.
    assert (cursorStep c index 10 (10 - Z.of_nat (S m)) (ls, acc) w
            = (Ret (LastSort page, acc ++ Users page),
               snd (log (StdPrintf "current cursor: %v\n" (LastSort page)) w1)))
      as Hstep by (apply cursorStep_ret; by exists page, w1).
    unfold bind. rewrite Hstep.
    destruct (IH (10 - Z.of_nat (S m) + 1) fuel (LastSort page)
                (acc ++ Users page)
                (snd (log (StdPrintf "current cursor: %v\n" (LastSort page)) w1))
                pages w') as [ls' Hloop];
      [lia | lia | lia | done | by injection Hlen |].
    exists ls'. rewrite Hloop. cbn. by rewrite <- app_assoc.
Qed.

End CursorLoop.

(** X9.  [cursorPaginate], given fuel for the ten tests of its loop
    condition, does not run out of it.  When it returns, nine pages were
    fetched after the first call, each with the cursor the page before it
    reported (the first of them with the cursor of the first call's result,
    error or not), and the result is the documents of the first call
    followed by those of the nine pages in fetch order; and it does return
    whenever the first call returns and the nine chained fetches return
    without error. *)
Theorem cursorPaginate_chain (fuel : nat) (c : Client) (index : string)
    (w : World) :
  (9 < fuel)%nat ->
  fst (cursorPaginate fuel c index w) <> OutOfFuel /\
  (forall res w',
     cursorPaginate fuel c index w = (Ret res, w') ->
     exists initRes err0 w1 pages,
       Load c index 0 10 f64_zero w = (Ret (initRes, err0), w1) /\
       Chained c index 10 w1 (LastSort initRes) pages w' /\
       length pages = 9%nat /\
       res = Users initRes ++ concat (Users <$> pages)) /\
  (forall initRes err0 w1 pages w',
     Load c index 0 10 f64_zero w = (Ret (initRes, err0), w1) ->
     Chained c index 10 w1 (LastSort initRes) pages w' ->
     length pages = 9%nat ->
     cursorPaginate fuel c index w
     = (Ret (Users initRes ++ concat (Users <$> pages)), w')).
Proof.
  intros Hfuel. unfold cursorPaginate. unfold bind at 1 3 5.
  pose proof (Load_outcome c index 0 10 f64_zero w) as Hout.
  destruct (Load c index 0 10 f64_zero w) as [o w1]. cbn [fst] in Hout.
  destruct Hout as [[[initRes err0] ->]|[msg ->]].
  2: { split; [done|]. split; [discriminate|]. discriminate. }
  cbn [app]. unfold bind. split; [|split].
  - pose proof (cursorLoop_fuel c index 9 1 fuel
                  (LastSort initRes, Users initRes) w1 eq_refl) as Hf.
    destruct (forLoop fuel _ _ _ 1 (LastSort initRes, Users initRes) w1)
      as [[s|msg|code|] w2]; cbn [fst] in *; try done.
    intros _. apply Hf; [lia|lia|done].
  - intros res w' Hrun.
    destruct (forLoop fuel _ _ _ 1 (LastSort initRes, Users initRes) w1)
      as [[s|msg|code|] w2] eqn:Hloop; try discriminate.
    injection Hrun as <- <-.
    apply (cursorLoop_returns c index 9) in Hloop
      as (pages & HC & Hlen & Hres); [|done|lia|lia].
    by exists initRes, err0, w1, pages.
  - intros initRes' err0' w1' pages w' [= <- <- <-] HC Hlen.
    destruct (cursorLoop_chained c index 9 1 fuel (LastSort initRes)
                (Users initRes) w1 pages w') as [ls' ->]; try done; lia.
Qed.

(** ** The offset loop when a fetch fails *)

Lemma offsetLoop_error (c : Client) (index : string) (size bound : Z)
    (sr : SearchResult) (err : error) (w1 w2 : World) :
  0 < size -> bound + size <= max_int64 ->
  forall k j fuel acc w pages,
    (j + k < pageCount bound size)%nat -> (k < fuel)%nat ->
    Fetched c index size w (offsetsFrom size j k) pages w1 ->
    Load c index (Z.of_nat (j + k) * size) size f64_zero w1
      = (Ret (sr, Some err), w2) ->
    forLoop fuel (fun i => i <? bound) (fun i => wrap64 (i + size))
      (offsetStep c index size) (Z.of_nat j * size) acc w
    = (Exit 1, {| engine := engine w2; issued := issued w2;
                  logged := logged w2
                            ++ [StdFatalf "failed to fetch results: %v" err] |}).
Proof.
  intros Hsize Hmax.
  induction k as [|k IH]; intros j fuel acc w pages Hj Hfuel HF HL;
    (destruct fuel as [|fuel]; [lia|]);
    rewrite (offsetLoop_step c index size bound Hsize Hmax fuel j
               (pageCount bound size - j - 1)) by lia;
    unfold offsetsFrom in HF; cbn in HF.
  - inversion HF; subst. rewrite Nat.add_0_r in HL.
    unfold bind, offsetStep, bind. by rewrite HL.
  - inversion HF as [|? ? page w0 ? pages' ? HL0 HF']; subst.
    assert (offsetStep c index size (Z.of_nat j * size) acc w
            = (Ret (acc ++ Users page), w0)) as Hstep
      by (apply offsetStep_ret; eauto).
    unfold bind at 1. rewrite Hstep.
    apply (IH (S j) fuel _ w0 pages'); [lia|lia|done|].
    by replace (S j + k)%nat with (j + S k)%nat by lia.
Qed.

(** X10.  The offset loop stops at the first fetch that returns an error:
    when the fetches at the first [k] offsets return Pages and the one at
    offset [k * size] an error, the driver ends the process with status 1
    right after that fetch; it sends nothing more and returns no result. *)
Theorem offsetPagination_fails_fast (fuel : nat) (c : Client)
    (index : string) (size bound : Z) (k : nat) (w w1 w2 : World)
    (pages : list SearchResult) (sr : SearchResult) (err : error) :
  0 < size ->
  bound + size <= max_int64 ->
  (k < pageCount bound size)%nat ->
  (k < fuel)%nat ->
  Fetched c index size w (offsetsFrom size 0 k) pages w1 ->
  Load c index (Z.of_nat k * size) size f64_zero w1
    = (Ret (sr, Some err), w2) ->
  exists w3,
    offsetPagination fuel c index 0 size bound w = (Exit 1, w3) /\
    issued w3 = issued w2 /\
    engine w3 = engine w2 /\
    logged w3 = logged w2 ++ [StdFatalf "failed to fetch results: %v" err].
Proof.
  intros Hsize Hmax Hk Hfuel HF HL. eexists. split.
  - unfold offsetPagination. change 0 with (Z.of_nat 0 * size).
    by apply (offsetLoop_error c index size bound sr err w1 w2 Hsize Hmax
                k 0%nat fuel [] w pages).
  - done.
Qed.

End MoreProperties.

(** * Properties of New, Store, CreateIndex, Create100kUsers and their
    callers *)

Section CallerProperties.
Context `{J : Jsoniter} `{E : Elasticsearch} `{P : Platform}.
Context `{G : GoElasticsearch}.

(** ** simpleLoad and New *)

(** X11.  [simpleLoad] returns a Page only after one offset request, from 0
    and of size 10, that the engine has answered with a status of at most
    299; when [Load] returns an error it ends the process with status 1
    instead of returning. *)
Theorem simpleLoad_returns_inv (client : Client) (index : string)
    (w : World) :
  (forall sr w',
     simpleLoad client index w = (Ret sr, w') ->
     exists res r req,
       Receives client index 0 10 f64_zero w res r /\
       StatusCode res <= 299 /\
       issued w' = issued w ++ [req] /\
       WithFrom req = Some 0 /\ WithSize req = 10) /\
  (forall sr err w1,
     Load client index 0 10 f64_zero w = (Ret (sr, Some err), w1) ->
     exists w',
       simpleLoad client index w = (Exit 1, w') /\ issued w' = issued w1).
Proof.
  unfold simpleLoad, bind, Fatalf, ret. split.
  - intros sr w'.
    destruct (Load client index 0 10 f64_zero w)
      as [[[page [err|]]|msg|code|] w1] eqn:HL; try discriminate.
    intros [= <- <-].
    destruct (Load_ok_inv _ _ _ _ _ _ _ _ HL) as (res & r & _ & _ & Hr & _).
    pose proof (Load_issued client index 0 10 f64_zero w) as Hi.
    rewrite HL in Hi. cbn [snd] in Hi. unfold LoadIssues in Hi.
    destruct Hr as (buf & Henc & Hs & Hok & Hdec). rewrite Henc in Hi.
    exists res, r, (LoadRequest client index 0 10 f64_zero buf).
    split; [by exists buf|]. split; [|done].
    unfold IsError in Hok. by apply Z.ltb_ge in Hok.
  - intros sr err w1 ->. eexists. split; reflexivity.
Qed.

(** X12.  Whatever the configuration says about total hits, a client made
    by [New] has [Load] ask for tracked total hits in every request; the
    request carries the configured timeout and goes to the configured
    default index when [Load] is given no index. *)
Theorem New_client_requests (esCfg : EsConfig) (customCfg : Config)
    (w0 w0' : World) (c : Client) (index : string) (from size : Z)
    (cursor : float64) (w : World) (req : SearchRequest) :
  New esCfg customCfg w0 = (Ret (Some c, None), w0') ->
  issued (snd (Load c index from size cursor w)) = issued w ++ [req] ->
  WithTrackTotalHits req = true /\
  WithTimeout req = MaxSearchQueryTimeout customCfg /\
  WithIndex req
  = (if decide (index = "") then DefaultIndex customCfg else index).
Proof.
  unfold New. destruct (NewClient esCfg); [discriminate|].
  unfold bind, log, ret. intros [= <- _].
  rewrite Load_issued. intros Hreq. apply app_inv_head in Hreq.
  unfold LoadIssues in Hreq.
  destruct (Encode (buildQuery cursor)) as [buf|e]; [|discriminate].
  injection Hreq as <-. unfold LoadRequest.
  by destruct (f64_neq cursor f64_zero).
Qed.

End CallerProperties.

Section AdminProperties.
Context `{J : Jsoniter} `{E : Elasticsearch} `{P : Platform}.
Context `{API : !Esapi} `{JU : JsoniterUser} `{OS : Os} `{G : GoElasticsearch}.

(** ** Store *)

Lemma Store_marshal_error (c : Client) (index : string) (doc : User)
    (err : string) (cl : Cluster) :
  MarshalUser doc = Err err ->
  Store c index doc cl = (Ret (Some (ErrMarshalingDocument doc err)), cl).
Proof. intros Hm. unfold Store, deferRecover. by rewrite Hm. Qed.

Lemma Store_sent (c : Client) (index : string) (doc : User) (docB : bytes)
    (r : Called (result Response)) (eng : Engine) (cl : Cluster) :
  MarshalUser doc = Ok docB ->
  IndexDo (node cl) (StoreRequest c index docB) = (r, eng) ->
  Store c index doc cl
  = let cl1 := sent (StoreRequest c index docB) eng cl in
    match r with
    | Panicked _ =>
        (Ret None,
         write (JZapError "es.Client.Store() recover from panic") cl1)
    | Returned (Err err) => (Ret (Some (ErrSendingRequest err)), cl1)
    | Returned (Ok res) =>
        if IsError res
        then (Ret (Some (ErrInsertingDocument res)), snd (closeBodyA res cl1))
        else (Ret None,
              snd (closeBodyA res
                     (write (JZapDebug "Successfully send doc to elastic") cl1)))
    end.
Proof.
  intros Hm Hdo. unfold Store, deferRecover, bindA, indexDo, deferA, logA, retA.
  rewrite Hm, Hdo. destruct r as [[res|err]|msg]; try reflexivity.
  by destruct (IsError res).
Qed.

Lemma closeBodyA_requests (res : Response) (cl : Cluster) :
  indexRequests (snd (closeBodyA res cl)) = indexRequests cl /\
  createRequests (snd (closeBodyA res cl)) = createRequests cl /\
  node (snd (closeBodyA res cl)) = node cl.
Proof. unfold closeBodyA. by destruct (CloseErr res). Qed.

Lemma Store_returns (c : Client) (index : string) (doc : User)
    (cl : Cluster) :
  exists r, fst (Store c index doc cl) = Ret r.
Proof.
  destruct (MarshalUser doc) as [docB|err] eqn:Hm.
  - destruct (IndexDo (node cl) (StoreRequest c index docB))
      as [r eng] eqn:Hdo.
    rewrite (Store_sent _ _ _ _ _ _ _ Hm Hdo). cbv zeta.
    destruct r as [[res|err]|msg]; [destruct (IsError res)|..];
      by eexists.
  - rewrite (Store_marshal_error _ _ _ _ _ Hm). by eexists.
Qed.

(** X13.  [Store] never panics and never ends the process: it returns.
    When the call of the transport panics, [Store] logs the recovery and
    returns a nil error, as it does for a stored document. *)
Theorem Store_recovers (c : Client) (index : string) (doc : User)
    (cl : Cluster) :
  (exists r, fst (Store c index doc cl) = Ret r) /\
  (forall docB msg,
     MarshalUser doc = Ok docB ->
     fst (IndexDo (node cl) (StoreRequest c index docB)) = Panicked msg ->
     fst (Store c index doc cl) = Ret None /\
     journal (snd (Store c index doc cl))
     = journal cl ++ [JZapError "es.Client.Store() recover from panic"]).
Proof.
  split; [apply Store_returns|].
  intros docB msg Hm Hp.
  destruct (IndexDo (node cl) (StoreRequest c index docB))
    as [r eng] eqn:Hdo.
  cbn [fst] in Hp. subst r.
  by rewrite (Store_sent _ _ _ _ _ _ _ Hm Hdo).
Qed.

(** X14.  A nil error from [Store] means that the document was encoded and
    that one index request went out with these bytes as its body, an empty
    document id and refresh "true", to the index given or, when that name
    is empty, to the default index of the client; and either the engine
    answered it with a status of at most 299, or the call panicked. *)
Theorem Store_nil_error_inv (c : Client) (index : string) (doc : User)
    (cl cl' : Cluster) :
  Store c index doc cl = (Ret None, cl') ->
  exists docB,
    MarshalUser doc = Ok docB /\
    indexRequests cl'
    = indexRequests cl
      ++ [{| IndexRequest.Index :=
               if decide (index = "") then defaultIndex c else index;
             IndexRequest.DocumentID := "";
             IndexRequest.Body := docB;
             IndexRequest.Refresh := "true" |}] /\
    ((exists msg,
        fst (IndexDo (node cl) (StoreRequest c index docB)) = Panicked msg) \/
     (exists res,
        fst (IndexDo (node cl) (StoreRequest c index docB))
          = Returned (Ok res) /\
        StatusCode res <= 299)).
Proof.
  destruct (MarshalUser doc) as [docB|err] eqn:Hm.
  2: { by rewrite (Store_marshal_error _ _ _ _ _ Hm). }
  destruct (IndexDo (node cl) (StoreRequest c index docB)) as [r eng] eqn:Hdo.
  rewrite (Store_sent _ _ _ _ _ _ _ Hm Hdo). cbv zeta.
  destruct r as [[res|err]|msg]; try discriminate.
  - destruct (IsError res) eqn:Hok; [discriminate|]. intros [= <-].
    exists docB. split; [done|]. split.
    + by destruct (closeBodyA_requests res
           (write (JZapDebug "Successfully send doc to elastic")
              (sent (StoreRequest c index docB) eng cl))) as [-> _].
    + right. exists res. rewrite Hdo. split; [done|].
      unfold IsError in Hok. by apply Z.ltb_ge in Hok.
  - intros [= <-]. exists docB. split; [done|]. split; [done|].
    left. exists msg. by rewrite Hdo.
Qed.

Lemma Store_sends (c : Client) (index : string) (doc : User)
    (cl : Cluster) :
  indexRequests (snd (Store c index doc cl))
  = indexRequests cl
    ++ match MarshalUser doc with
       | Ok docB => [StoreRequest c index docB]
       | Err _ => []
       end /\
  createRequests (snd (Store c index doc cl)) = createRequests cl.
Proof.
  destruct (MarshalUser doc) as [docB|err] eqn:Hm.
  - destruct (IndexDo (node cl) (StoreRequest c index docB))
      as [r eng] eqn:Hdo.
    rewrite (Store_sent _ _ _ _ _ _ _ Hm Hdo). cbv zeta.
    split;
      (destruct r as [[res|err]|msg]; [destruct (IsError res)|..]);
      cbn [snd]; try done;
      match goal with |- context [closeBodyA res ?x] =>
        destruct (closeBodyA_requests res x) as (H1 & H2 & _);
        rewrite ?H1, ?H2 end; done.
  - rewrite (Store_marshal_error _ _ _ _ _ Hm). cbn [snd].
    by rewrite app_nil_r.
Qed.

(** X15.  [Store] sends no request when the document does not encode, and
    returns the encoding error then; otherwise it sends exactly one index
    request.  It never sends a request that creates an index. *)
Theorem Store_requests (c : Client) (index : string) (doc : User)
    (cl : Cluster) :
  indexRequests (snd (Store c index doc cl))
  = indexRequests cl
    ++ match MarshalUser doc with
       | Ok docB => [StoreRequest c index docB]
       | Err _ => []
       end /\
  createRequests (snd (Store c index doc cl)) = createRequests cl /\
  (forall err,
     MarshalUser doc = Err err ->
     Store c index doc cl = (Ret (Some (ErrMarshalingDocument doc err)), cl)).
Proof.
  destruct (Store_sends c index doc cl) as [Hi Hc].
  split; [done|]. split; [done|].
  intros err Hm. by apply Store_marshal_error.
Qed.

(** ** Create100kUsers *)

Lemma storeStep_nthUser (c : Client) (index : string) (i : Z) (user : User) :
  CreatedAt user = Now ->
  storeStep c index i user
  = bindA (Store c index (nthUser i)) (fun err =>
      match err with
      | Some err => fatalA (JStdFatal "failed to store" err)
      | None => retA (nthUser i)
      end).
Proof. intros Hu. unfold storeStep, nthUser. cbn. by rewrite Hu. Qed.

Lemma storeStep_fuel (c : Client) (index : string) (i : Z) (user : User)
    (cl : Cluster) :
  CreatedAt user = Now ->
  fst (storeStep c index i user cl) <> OutOfFuel.
Proof.
  intros Hu. rewrite (storeStep_nthUser _ _ _ _ Hu). unfold bindA.
  destruct (Store_returns c index (nthUser i) cl) as [r Hr].
  destruct (Store c index (nthUser i) cl) as [o cl1]. cbn [fst] in Hr.
  subst o. by destruct r.
Qed.

Lemma storeStep_ret (c : Client) (index : string) (i : Z) (user user' : User)
    (cl cl' : Cluster) :
  CreatedAt user = Now ->
  storeStep c index i user cl = (Ret user', cl') <->
  Store c index (nthUser i) cl = (Ret None, cl') /\ user' = nthUser i.
Proof.
  intros Hu. rewrite (storeStep_nthUser _ _ _ _ Hu). unfold bindA, fatalA, retA.
  destruct (Store c index (nthUser i) cl) as [[[err|]|msg|code|] cl1];
    (split; [intros Hs | intros [Hs ->]]); try discriminate.
  - by injection Hs as <- <-.
  - by injection Hs as <-.
Qed.

Section UserLoop.
Variables (c : Client) (index : string) (n : Z).
Hypothesis Hmax : n <= max_int64.

(** The loop of [createUsers], entered with the counter at [k]. *)
Local Abbreviation uloop fuel k :=
  (forLoopA fuel (fun i => i <? n) (fun i => wrap64 (i + 1))
     (storeStep c index) (Z.of_nat k)).

Lemma userLoop_done (fuel k : nat) (user : User) (cl : Cluster) :
  (k + 0 = Z.to_nat n)%nat \/ (Z.to_nat n <= k)%nat ->
  uloop (S fuel) k user cl = (Ret user, cl).
Proof using Type.
  intros Hk. cbn [forLoopA].
  destruct (Z.ltb_spec (Z.of_nat k) n); [lia|reflexivity].
Qed.

Lemma userLoop_step (fuel k : nat) (user : User) (cl : Cluster) :
  (k < Z.to_nat n)%nat ->
  uloop (S fuel) k user cl
  = bindA (storeStep c index (Z.of_nat k) user) (uloop fuel (S k)) cl.
Proof using Hmax.
  intros Hk. cbn [forLoopA].
  destruct (Z.ltb_spec (Z.of_nat k) n); [|lia].
  rewrite wrap64_id; [|unfold min_int64, max_int64 in *; lia].
  by replace (Z.of_nat k + 1) with (Z.of_nat (S k)) by lia.
Qed.

Lemma userLoop_fuel (m : nat) :
  forall k fuel user cl,
    CreatedAt user = Now ->
    (k + m = Z.to_nat n)%nat -> (m < fuel)%nat ->
    fst (uloop fuel k user cl) <> OutOfFuel.
Proof using Hmax.
  induction m as [|m IH]; intros k fuel user cl Hu Hk Hfuel;
    (destruct fuel as [|fuel]; [lia|]).
  - rewrite userLoop_done by lia. done.
  - rewrite userLoop_step by lia. unfold bindA.
    pose proof (storeStep_fuel c index (Z.of_nat k) user cl Hu) as Hs.
    destruct (storeStep c index (Z.of_nat k) user cl)
      as [[user1|msg|code|] cl1] eqn:Hstep; cbn [fst] in *; try done.
    apply (storeStep_ret _ _ _ _ _ _ _ Hu) in Hstep as [_ ->].
    apply IH; [done|lia|lia].
Qed.

Lemma userLoop_returns (m : nat) :
  forall k fuel user cl user' cl',
    CreatedAt user = Now ->
    (k + m = Z.to_nat n)%nat -> (m < fuel)%nat ->
    uloop fuel k user cl = (Ret user', cl') ->
    Stored c index cl (roundsFrom k m) cl'.
Proof using Hmax.
  induction m as [|m IH]; intros k fuel user cl user' cl' Hu Hk Hfuel;
    (destruct fuel as [|fuel]; [lia|]).
  - rewrite userLoop_done by lia. intros [= _ <-]. constructor.
  - rewrite userLoop_step by lia. unfold bindA.
    destruct (storeStep c index (Z.of_nat k) user cl)
      as [[user1|msg|code|] cl1] eqn:Hstep; try discriminate.
    apply (storeStep_ret _ _ _ _ _ _ _ Hu) in Hstep as [Hst ->].
    intros Hloop. apply IH in Hloop; [|done|lia|lia].
    unfold roundsFrom. cbn. by econstructor.
Qed.

Lemma userLoop_stored (m : nat) :
  forall k fuel user cl cl',
    CreatedAt user = Now ->
    (k + m = Z.to_nat n)%nat -> (m < fuel)%nat ->
    Stored c index cl (roundsFrom k m) cl' ->
    exists user', uloop fuel k user cl = (Ret user', cl').
Proof using Hmax.
  induction m as [|m IH]; intros k fuel user cl cl' Hu Hk Hfuel HS;
    (destruct fuel as [|fuel]; [lia|]).
  - inversion HS; subst. exists user. apply userLoop_done. lia.
  - unfold roundsFrom in HS. cbn in HS.
    inversion HS as [|? ? cl1 ? ? Hst HS']; subst.
    rewrite userLoop_step by lia. unfold bindA.
    assert (storeStep c index (Z.of_nat k) user cl
            = (Ret (nthUser (Z.of_nat k)), cl1)) as ->
      by (by apply storeStep_ret).
    apply IH; [done|lia|lia|done].
Qed.

Lemma userLoop_error (k : nat) :
  forall j fuel user cl cl1 cl2 err,
    CreatedAt user = Now ->
    (j + k < Z.to_nat n)%nat -> (k < fuel)%nat ->
    Stored c index cl (roundsFrom j k) cl1 ->
    Store c index (nthUser (Z.of_nat (j + k))) cl1 = (Ret (Some err), cl2) ->
    uloop fuel j user cl
    = (Exit 1, write (JStdFatal "failed to store" err) cl2).
Proof using Hmax.
  induction k as [|k IH]; intros j fuel user cl cl1 cl2 err Hu Hj Hfuel HS Hst;
    (destruct fuel as [|fuel]; [lia|]);
    rewrite userLoop_step by lia;
    rewrite (storeStep_nthUser _ _ _ _ Hu); unfold bindA at 1 2.
  - inversion HS; subst. rewrite Nat.add_0_r in Hst. by rewrite Hst.
  - unfold roundsFrom in HS. cbn in HS.
    inversion HS as [|? ? cl0 ? ? Hst0 HS']; subst.
    rewrite Hst0. unfold retA.
    apply (IH (S j) fuel _ cl0 cl1 cl2 err); [done|lia|lia|done|].
    by replace (S j + k)%nat with (j + S k)%nat by lia.
Qed.

End UserLoop.

Lemma Stored_requests (c : Client) (index : string) (cl cl' : Cluster)
    (rounds : list Z) :
  Stored c index cl rounds cl' ->
  exists bodies,
    Forall2 (fun i docB => MarshalUser (nthUser i) = Ok docB) rounds bodies /\
    indexRequests cl' = indexRequests cl ++ (StoreRequest c index <$> bodies).
Proof.
  induction 1 as [cl|cl i cl1 rounds cl' Hst _ (bodies & Hb & Hreq)].
  - exists []. split; [constructor|]. by rewrite app_nil_r.
  - destruct (MarshalUser (nthUser i)) as [docB|err] eqn:Hm.
    2: { by rewrite (Store_marshal_error _ _ _ _ _ Hm) in Hst. }
    exists (docB :: bodies). split; [by constructor|].
    destruct (Store_sends c index (nthUser i) cl) as (Hi & _).
    rewrite Hst, Hm in Hi. cbn [snd] in Hi.
    rewrite Hreq, Hi, <- app_assoc. done.
Qed.

Lemma length_roundsFrom (k m : nat) : length (roundsFrom k m) = m.
Proof. unfold roundsFrom. by rewrite length_fmap, length_seq. Qed.

(** X16.  [Create100kUsers], with its bound [n] as a parameter and fuel for
    the [n + 1] tests of its loop condition, does not run out of fuel.  It
    returns exactly when [Store] returns a nil error in each of the rounds
    0, 1, ..., n - 1; it has then sent [n] index requests, in this order,
    the request of round [i] carrying the encoding of the user with
    identifier [i], name "user i" and the time read at the start. *)
Theorem createUsers_rounds (fuel : nat) (c : Client) (index : string)
    (n : Z) (cl : Cluster) :
  n <= max_int64 ->
  (Z.to_nat n < fuel)%nat ->
  fst (createUsers fuel c index n cl) <> OutOfFuel /\
  (forall cl',
     createUsers fuel c index n cl = (Ret tt, cl') <->
     Stored c index cl (roundsFrom 0 (Z.to_nat n)) cl') /\
  (forall cl',
     createUsers fuel c index n cl = (Ret tt, cl') ->
     exists bodies,
       Forall2 (fun i docB => MarshalUser (nthUser i) = Ok docB)
         (roundsFrom 0 (Z.to_nat n)) bodies /\
       length bodies = Z.to_nat n /\
       indexRequests cl'
       = indexRequests cl ++ (StoreRequest c index <$> bodies)).
Proof.
  intros Hmax Hfuel. unfold createUsers, bindA, retA.
  set (user := {| ID := 0; CreatedAt := Now; Username := "init" |}).
  assert (forall cl',
            match forLoopA fuel (fun i => i <? n) (fun i => wrap64 (i + 1))
                    (storeStep c index) 0 user cl with
            | (Ret _, cl1) => (Ret tt, cl1)
            | (Panic msg, cl1) => (Panic msg, cl1)
            | (Exit code, cl1) => (Exit code, cl1)
            | (OutOfFuel, cl1) => (OutOfFuel, cl1)
            end = (Ret tt, cl') ->
            Stored c index cl (roundsFrom 0 (Z.to_nat n)) cl') as Hret.
  { intros cl'.
    destruct (forLoopA fuel _ _ _ 0 user cl) as [[user'|msg|code|] cl1] eqn:Hloop;
      try discriminate.
    intros [= <-].
    by apply (userLoop_returns c index n Hmax (Z.to_nat n) 0%nat fuel user
                cl user' cl1). }
  split; [|split].
  - pose proof (userLoop_fuel c index n Hmax (Z.to_nat n) 0%nat fuel user cl
                  eq_refl eq_refl Hfuel) as Hf.
    change (Z.of_nat 0) with 0 in Hf.
    by destruct (forLoopA fuel _ _ _ 0 user cl) as [[user'|msg|code|] cl1].
  - intros cl'. split; [apply Hret|]. intros HS.
    destruct (userLoop_stored c index n Hmax (Z.to_nat n) 0%nat fuel user
                cl cl' eq_refl eq_refl Hfuel HS) as [user' Hloop].
    change (Z.of_nat 0) with 0 in Hloop. by rewrite Hloop.
  - intros cl' Hrun. apply Hret in Hrun.
    destruct (Stored_requests _ _ _ _ _ Hrun) as (bodies & Hb & Hreq).
    exists bodies. split; [done|]. split; [|done].
    by rewrite <- (Forall2_length _ _ _ Hb), length_roundsFrom.
Qed.

(** X17.  The loop of [Create100kUsers] stops at the first round in which
    [Store] returns an error: the process ends with status 1 right after
    that call, nothing more is sent. *)
Theorem createUsers_stops_on_error (fuel : nat) (c : Client)
    (index : string) (n : Z) (k : nat) (cl cl1 cl2 : Cluster)
    (err : esError) :
  n <= max_int64 ->
  (k < Z.to_nat n)%nat ->
  (k < fuel)%nat ->
  Stored c index cl (roundsFrom 0 k) cl1 ->
  Store c index (nthUser (Z.of_nat k)) cl1 = (Ret (Some err), cl2) ->
  createUsers fuel c index n cl
  = (Exit 1, write (JStdFatal "failed to store" err) cl2).
Proof.
  intros Hmax Hk Hfuel HS Hst. unfold createUsers, bindA.
  pose proof (userLoop_error c index n Hmax k 0%nat fuel
                {| ID := 0; CreatedAt := Now; Username := "init" |}
                cl cl1 cl2 err eq_refl Hk Hfuel HS Hst) as Hloop.
  change (Z.of_nat 0) with 0 in Hloop. by rewrite Hloop.
Qed.

Lemma Stored_when_panicking (c : Client) (index : string) :
  (forall eng req, exists msg eng', IndexDo eng req = (Panicked msg, eng')) ->
  (forall i, exists docB, MarshalUser (nthUser i) = Ok docB) ->
  forall rounds cl, exists cl', Stored c index cl rounds cl'.
Proof.
  intros Hpanic Hmarshal.
  induction rounds as [|i rounds IH]; intros cl.
  - exists cl. constructor.
  - destruct (Hmarshal i) as [docB Hm].
    destruct (Hpanic (node cl) (StoreRequest c index docB))
      as (msg & eng & Hdo).
    pose proof (Store_sent _ _ _ _ _ _ _ Hm Hdo) as Hst.
    cbv zeta iota in Hst.
    destruct (IH (write (JZapError "es.Client.Store() recover from panic")
                    (sent (StoreRequest c index docB) eng cl))) as [cl' HS].
    exists cl'. econstructor; [exact Hst|exact HS].
Qed.

(** X18.  A transport that panics in every call does not stop
    [Create100kUsers]: when the users encode, every round recovers, and the
    function returns after its [n] attempts as if all had been stored. *)
Theorem createUsers_survives_panics (fuel : nat) (c : Client)
    (index : string) (n : Z) (cl : Cluster) :
  (forall eng req, exists msg eng', IndexDo eng req = (Panicked msg, eng')) ->
  (forall i, exists docB, MarshalUser (nthUser i) = Ok docB) ->
  n <= max_int64 ->
  (Z.to_nat n < fuel)%nat ->
  exists cl',
    createUsers fuel c index n cl = (Ret tt, cl') /\
    length (indexRequests cl')
    = (length (indexRequests cl) + Z.to_nat n)%nat.
Proof.
  intros Hpanic Hmarshal Hmax Hfuel.
  destruct (Stored_when_panicking c index Hpanic Hmarshal
              (roundsFrom 0 (Z.to_nat n)) cl) as [cl' HS].
  exists cl'. split.
  - unfold createUsers, bindA.
    destruct (userLoop_stored c index n Hmax (Z.to_nat n) 0%nat fuel
                {| ID := 0; CreatedAt := Now; Username := "init" |}
                cl cl' eq_refl eq_refl Hfuel HS) as [user' Hloop].
    change (Z.of_nat 0) with 0 in Hloop. by rewrite Hloop.
  - destruct (Stored_requests _ _ _ _ _ HS) as (bodies & Hb & ->).
    rewrite length_app, length_fmap.
    by rewrite <- (Forall2_length _ _ _ Hb), length_roundsFrom.
Qed.

(** ** CreateIndex *)

Lemma CreateIndex_inv (c : Client) (index mapping : string)
    (cl cl' : Cluster) (oe : option esError) :
  CreateIndex c index mapping cl = (Ret oe, cl') ->
  exists file,
    ReadFile mapping = (Some file, None) /\
    createRequests cl'
    = createRequests cl
      ++ [{| IndicesCreateRequest.Index := index;
             IndicesCreateRequest.Body := file |}] /\
    indexRequests cl' = indexRequests cl /\
    (oe = None ->
     exists res,
       fst (IndicesCreateDo (node cl)
              {| IndicesCreateRequest.Index := index;
                 IndicesCreateRequest.Body := file |})
         = Returned (Ok res) /\
       StatusCode res <= 299).
Proof.
  unfold CreateIndex.
  destruct (ReadFile mapping) as [[file|] [err|]]; try discriminate.
  unfold bindA, indicesCreateDo, deferA, retA.
  destruct (IndicesCreateDo (node cl) _) as [[[res|err]|msg] eng] eqn:Hdo;
    try discriminate.
  - destruct (IsError res) eqn:Hok; cbv beta iota; intros [= <- <-];
      exists file; (split; [done|]);
      destruct (closeBodyA_requests res
                  {| node := eng; indexRequests := indexRequests cl;
                     createRequests := createRequests cl
                       ++ [{| IndicesCreateRequest.Index := index;
                              IndicesCreateRequest.Body := file |}];
                     journal := journal cl |}) as (H1 & H2 & _);
      rewrite H1, H2; cbn [indexRequests createRequests];
      (split; [done|]); (split; [done|]); [discriminate|].
    intros _. exists res. rewrite Hdo. split; [done|].
    unfold IsError in Hok. by apply Z.ltb_ge in Hok.
  - intros [= <- <-]. exists file. by repeat split.
Qed.

(** X19.  When [CreateIndex] returns, the mapping file was read, and one
    request to create the index went out with the file's bytes as its body
    and with the index name as given (an empty name is not replaced by the
    default index); a nil error means the engine answered it with a status
    of at most 299. *)
Theorem CreateIndex_returns_inv (c : Client) (index mapping : string)
    (cl cl' : Cluster) (oe : option esError) :
  CreateIndex c index mapping cl = (Ret oe, cl') ->
  exists file,
    ReadFile mapping = (Some file, None) /\
    createRequests cl'
    = createRequests cl
      ++ [{| IndicesCreateRequest.Index := index;
             IndicesCreateRequest.Body := file |}] /\
    indexRequests cl' = indexRequests cl /\
    (oe = None ->
     exists res,
       fst (IndicesCreateDo (node cl)
              {| IndicesCreateRequest.Index := index;
                 IndicesCreateRequest.Body := file |})
         = Returned (Ok res) /\
       StatusCode res <= 299).
Proof. apply CreateIndex_inv. Qed.

(** X20.  When the mapping file cannot be read (an error, or no data),
    [CreateIndex] returns no error value: it logs and ends the process with
    status 1, before any request. *)
Theorem CreateIndex_unreadable_mapping (c : Client) (index mapping : string)
    (cl : Cluster) (file : option bytes) (err : option string) :
  ReadFile mapping = (file, err) ->
  err <> None \/ file = None ->
  CreateIndex c index mapping cl
  = (Exit 1,
     write (JZapFatal "Could not read file with mapping defaultIndex schema")
       cl).
Proof.
  intros Hread Hbad. unfold CreateIndex. rewrite Hread.
  destruct err as [e|], file as [f|]; try reflexivity.
  by destruct Hbad.
Qed.

(** X21.  [createIndex] returns only when the index was created: the file
    mapping.json was read, the request carrying it went out, and the engine
    answered with a status of at most 299. *)
Theorem createIndex_returns_inv (client : Client) (index : string)
    (cl cl' : Cluster) :
  createIndex client index cl = (Ret tt, cl') ->
  exists file res,
    ReadFile "mapping.json" = (Some file, None) /\
    createRequests cl'
    = createRequests cl
      ++ [{| IndicesCreateRequest.Index := index;
             IndicesCreateRequest.Body := file |}] /\
    fst (IndicesCreateDo (node cl)
           {| IndicesCreateRequest.Index := index;
              IndicesCreateRequest.Body := file |})
      = Returned (Ok res) /\
    StatusCode res <= 299.
Proof.
  unfold createIndex, bindA, fatalA, retA.
  destruct (CreateIndex client index "mapping.json" cl)
    as [[[err|]|msg|code|] cl1] eqn:Hrun; try discriminate.
  intros [= <-].
  apply CreateIndex_inv in Hrun as (file & Hread & Hreq & _ & Hres).
  destruct (Hres eq_refl) as (res & Hdo & Hok).
  by exists file, res.
Qed.

End AdminProperties.


(** * The further theorems at work on the scripted engines *)

Section MoreScriptedRuns.
Import Scripted.

Local Existing Instances engineOf platform.

Local Abbreviation response n :=
  {| StatusCode := 200; Body := [n]; CloseErr := None |}.
Local Abbreviation replay n := (world [ok200 n]).
Local Abbreviation load := (@Load Scripted.codec _ _ client "").
Local Abbreviation load2 := (@Load ScriptedMore.codec _ _ client "").
Local Abbreviation page57 :=
  {| Users := [userOf 5; userOf 7]; TotalCount := 25; LastSort := seven |}.

Local Ltac receives := eexists; repeat split; reflexivity.

Lemma Load_nil_error_inv_witness :
  exists res r f,
    @Receives Scripted.codec _ client "" 0 10 f64_zero (replay "002"%byte) res r /\
    StatusCode res <= 299 /\
    @hits_total_value r = Some (Float64 f) /\
    TotalCount page57 = int64_of_float64 f.
Proof.
  apply (@Load_nil_error_inv Scripted.codec _ _ client "" 0 10 f64_zero
           (replay "002"%byte) (snd (load 0 10 f64_zero (replay "002"%byte)))
           page57).
  reflexivity.
Defined.

Lemma Load_nonzero_cursor_complete_witness :
  exists res r hits sds,
    @Receives Scripted.codec _ client "" 0 10 f64_zero (replay "002"%byte) res r /\
    hits_hits r = Some (Slice hits) /\
    @HitsDecode Scripted.codec hits sds /\
    Users page57 = snd <$> sds /\
    last (fst <$> sds) = Some (LastSort page57).
Proof.
  apply (@Load_nonzero_cursor_complete Scripted.codec _ _ client "" 0 10
           f64_zero (replay "002"%byte)
           (snd (load 0 10 f64_zero (replay "002"%byte))) page57);
    reflexivity.
Defined.

Lemma Load_full_page_documents_witness :
  fst (load 0 10 f64_zero (replay "002"%byte)) = Ret (page57, None).
Proof.
  apply (@Load_full_page_documents Scripted.codec _ _ client "" 0 10 f64_zero
           (replay "002"%byte) (response "002"%byte)
           (envelope (Float64 twentyfive) [good5; good7]) twentyfive
           [good5; good7] [(five, userOf 5); (seven, userOf 7)]).
  - receives.
  - reflexivity.
  - vm_compute. discriminate.
  - reflexivity.
  - repeat constructor; by econstructor.
Defined.

Lemma Load_empty_hits_resets_cursor_witness :
  exists sr,
    fst (load2 0 10 seven (replay "007"%byte)) = Ret (sr, None) /\
    Users sr = [] /\
    TotalCount sr = int64_of_float64 two /\
    LastSort sr = f64_zero /\
    forall c' index' from' size' buf,
      WithFrom (LoadRequest c' index' from' size' (LastSort sr) buf)
      = Some from'.
Proof.
  apply (@Load_empty_hits_resets_cursor ScriptedMore.codec _ _ client "" 0 10
           seven (replay "007"%byte) (response "007"%byte)
           (envelope (Float64 two) []) two).
  - receives.
  - reflexivity.
  - vm_compute. discriminate.
  - reflexivity.
Defined.

Lemma Load_malformed_hit_panics_witness :
  exists msg, fst (load2 0 10 f64_zero (replay "008"%byte)) = Panic msg.
Proof.
  apply (@Load_malformed_hit_panics ScriptedMore.codec _ _ client "" 0 10
           f64_zero (replay "008"%byte) (response "008"%byte)
           (envelope (Float64 two) [good5; String "noise"]) two
           [good5] (String "noise") [] [(five, userOf 5)]).
  - receives.
  - reflexivity.
  - vm_compute. discriminate.
  - reflexivity.
  - repeat constructor. by econstructor.
  - intros s d H. inversion H.
  - intros H. inversion H.
Defined.

Lemma Load_request_parameters_witness :
  WithIndex (LoadRequest client "" 0 10 f64_zero ["o"%byte])
    = "my-simple-index" /\
  WithSize (LoadRequest client "" 0 10 f64_zero ["o"%byte]) = 10 /\
  WithTimeout (LoadRequest client "" 0 10 f64_zero ["o"%byte])
    = 30000000000 /\
  WithTrackTotalHits (LoadRequest client "" 0 10 f64_zero ["o"%byte])
    = true /\
  WithPretty (LoadRequest client "" 0 10 f64_zero ["o"%byte]) = true /\
  (f64_neq f64_zero f64_zero = false ->
   WithFrom (LoadRequest client "" 0 10 f64_zero ["o"%byte]) = Some 0).
Proof.
  apply (@Load_request_parameters Scripted.codec _ _ client "" 0 10 f64_zero
           (replay "001"%byte)
           (LoadRequest client "" 0 10 f64_zero ["o"%byte])).
  reflexivity.
Defined.

Lemma cursorPaginate_chain_witness :
  (9 < 10)%nat /\
  fst (@cursorPaginate Scripted.codec _ _ 10 client ""
         (world (ok200 "002"%byte :: repeat (ok200 "001"%byte) 9)))
  <> OutOfFuel.
Proof.
  split; [lia|].
  apply (@cursorPaginate_chain Scripted.codec _ _ 10 client ""
           (world (ok200 "002"%byte :: repeat (ok200 "001"%byte) 9))).
  lia.
Defined.

Lemma offsetPagination_fails_fast_witness :
  exists w3,
    @offsetPagination Scripted.codec _ _ 4 client "" 0 10 25
      (world [ok200 "002"%byte; Err "context deadline exceeded"])
    = (Exit 1, w3) /\
    length (issued w3) = 2%nat.
Proof.
  destruct (@offsetPagination_fails_fast Scripted.codec _ _ 4 client "" 10 25
              1%nat
              (world [ok200 "002"%byte; Err "context deadline exceeded"])
              (snd (load 0 10 f64_zero
                      (world [ok200 "002"%byte;
                              Err "context deadline exceeded"])))
              (snd (load 10 10 f64_zero
                      (snd (load 0 10 f64_zero
                              (world [ok200 "002"%byte;
                                      Err "context deadline exceeded"])))))
              [page57] zeroSearchResult
              (ErrSearchResponse "context deadline exceeded"))
    as (w3 & Hrun & Hissued & _).
  - reflexivity.
  - vm_compute. discriminate.
  - vm_compute. lia.
  - lia.
  - econstructor; [reflexivity|constructor].
  - reflexivity.
  - exists w3. split; [exact Hrun|]. rewrite Hissued. reflexivity.
Defined.

End MoreScriptedRuns.

Section AdminScriptedRuns.
Import ScriptedAdmin.

Local Existing Instances engineOf esapi marshal os library.

Local Abbreviation client := Scripted.client.
Local Abbreviation created := {| StatusCode := 201; Body := []; CloseErr := None |}.
Local Abbreviation refused := {| StatusCode := 500; Body := []; CloseErr := None |}.

Lemma New_client_requests_witness :
  WithTrackTotalHits (LoadRequest client "" 0 10 f64_zero ["o"%byte]) = true /\
  WithTimeout (LoadRequest client "" 0 10 f64_zero ["o"%byte])
    = MaxSearchQueryTimeout config /\
  WithIndex (LoadRequest client "" 0 10 f64_zero ["o"%byte])
    = DefaultIndex config.
Proof.
  apply (@New_client_requests Scripted.codec Scripted.engineOf
           Scripted.platform library (Hosts config) config
           (Scripted.world [])
           (snd (@New Scripted.engineOf library (Hosts config) config
                   (Scripted.world [])))
           client "" 0 10 f64_zero (Scripted.world [Scripted.ok200 "001"%byte])
           (LoadRequest client "" 0 10 f64_zero ["o"%byte]));
    reflexivity.
Defined.

Lemma Store_nil_error_inv_witness :
  exists docB,
    MarshalUser (Scripted.userOf 1) = Ok docB /\
    indexRequests (snd (Store client "" (Scripted.userOf 1)
                          (cluster [status 201])))
    = [{| IndexRequest.Index := "my-simple-index";
          IndexRequest.DocumentID := "";
          IndexRequest.Body := docB;
          IndexRequest.Refresh := "true" |}] /\
    ((exists msg,
        fst (IndexDo (node (cluster [status 201]))
               (StoreRequest client "" docB)) = Panicked msg) \/
     (exists res,
        fst (IndexDo (node (cluster [status 201]))
               (StoreRequest client "" docB)) = Returned (Ok res) /\
        StatusCode res <= 299)).
Proof.
  apply (Store_nil_error_inv client "" (Scripted.userOf 1)
           (cluster [status 201])
           (snd (Store client "" (Scripted.userOf 1) (cluster [status 201])))).
  reflexivity.
Defined.

Lemma createUsers_rounds_witness :
  3 <= max_int64 /\
  fst (createUsers 4 client "" 3
         (cluster [status 201; status 201; status 201])) <> OutOfFuel.
Proof.
  split; [vm_compute; discriminate|].
  apply (createUsers_rounds 4 client "" 3
           (cluster [status 201; status 201; status 201]));
    [vm_compute; discriminate | vm_compute; lia].
Defined.

Lemma createUsers_stops_on_error_witness :
  fst (createUsers 4 client "" 3 (cluster [status 201; status 500; status 201]))
  = Exit 1 /\
  length (indexRequests
            (snd (createUsers 4 client "" 3
                    (cluster [status 201; status 500; status 201])))) = 2%nat.
Proof.
  rewrite (createUsers_stops_on_error 4 client "" 3 1%nat
             (cluster [status 201; status 500; status 201])
             (snd (Store client "" (nthUser 0)
                     (cluster [status 201; status 500; status 201])))
             (snd (Store client "" (nthUser 1)
                     (snd (Store client "" (nthUser 0)
                             (cluster [status 201; status 500; status 201])))))
             (ErrInsertingDocument refused)).
  - split; reflexivity.
  - vm_compute. discriminate.
  - vm_compute. lia.
  - lia.
  - econstructor; [reflexivity|constructor].
  - reflexivity.
Defined.

Lemma createUsers_survives_panics_witness :
  exists cl',
    @createUsers engineOf brokenEsapi marshal os 4 client "" 3 (cluster [])
    = (Ret tt, cl') /\
    length (indexRequests cl') = 3%nat.
Proof.
  apply (@createUsers_survives_panics engineOf brokenEsapi marshal os
           4 client "" 3 (cluster [])).
  - intros eng req. by eexists _, _.
  - intros i. by eexists.
  - vm_compute. discriminate.
  - vm_compute. lia.
Defined.

Lemma CreateIndex_returns_inv_witness :
  exists file,
    ReadFile "mapping.json" = (Some file, None) /\
    createRequests (snd (CreateIndex client "" "mapping.json"
                           (cluster [status 200])))
    = [{| IndicesCreateRequest.Index := "";
          IndicesCreateRequest.Body := file |}] /\
    indexRequests (snd (CreateIndex client "" "mapping.json"
                          (cluster [status 200]))) = [] /\
    (@None esError = None ->
     exists res,
       fst (IndicesCreateDo (node (cluster [status 200]))
              {| IndicesCreateRequest.Index := "";
                 IndicesCreateRequest.Body := file |})
         = Returned (Ok res) /\
       StatusCode res <= 299).
Proof.
  apply (CreateIndex_returns_inv client "" "mapping.json"
           (cluster [status 200])
           (snd (CreateIndex client "" "mapping.json" (cluster [status 200])))
           None).
  reflexivity.
Defined.

Lemma CreateIndex_unreadable_mapping_witness :
  fst (CreateIndex client "my-simple-index" "schema.json"
         (cluster [status 200])) = Exit 1 /\
  createRequests (snd (CreateIndex client "my-simple-index" "schema.json"
                         (cluster [status 200]))) = [].
Proof.
  rewrite (CreateIndex_unreadable_mapping client "my-simple-index"
             "schema.json" (cluster [status 200]) None
             (Some "open: no such file or directory")).
  - split; reflexivity.
  - reflexivity.
  - by left.
Defined.

Lemma createIndex_returns_inv_witness :
  exists file res,
    ReadFile "mapping.json" = (Some file, None) /\
    createRequests (snd (createIndex client "users" (cluster [status 200])))
    = [{| IndicesCreateRequest.Index := "users";
          IndicesCreateRequest.Body := file |}] /\
    fst (IndicesCreateDo (node (cluster [status 200]))
           {| IndicesCreateRequest.Index := "users";
              IndicesCreateRequest.Body := file |})
      = Returned (Ok res) /\
    StatusCode res <= 299.
Proof.
  apply (createIndex_returns_inv client "users" (cluster [status 200])
           (snd (createIndex client "users" (cluster [status 200])))).
  reflexivity.
Defined.

End AdminScriptedRuns.


(** * Properties of the program *)

Section ProgramProperties.
Context `{J : Jsoniter} `{E : Elasticsearch} `{P : Platform}.
Context `{G : GoElasticsearch} `{ENV : !MainEnv}.

Lemma Fetched_requests (c : Client) (index : string) (size : Z)
    (w w' : World) (offs : list Z) (pages : list SearchResult) :
  Fetched c index size w offs pages w' ->
  exists reqs,
    issued w' = issued w ++ reqs /\
    Forall2 (fun i req => exists buf,
               req = LoadRequest c index i size f64_zero buf) offs reqs.
Proof.
  induction 1 as [w|w i page w1 offs pages w' HL _ (reqs & Hi & Hreqs)].
  - exists []. split; [by rewrite app_nil_r|constructor].
  - pose proof (Load_issued c index i size f64_zero w) as Hl.
    rewrite HL in Hl. cbn [snd] in Hl. unfold LoadIssues in Hl.
    destruct (Load_ok_inv _ _ _ _ _ _ _ _ HL)
      as (res & r & _ & _ & (buf & Henc & _) & _).
    rewrite Henc in Hl.
    exists (LoadRequest c index i size f64_zero buf :: reqs). split.
    + rewrite Hi, Hl, <- app_assoc. done.
    + constructor; [by exists buf|done].
Qed.

(** X22.  When [main] returns, the logger and the client were set up without
    error; ten pages were fetched, by ten search requests that all went to
    the index my-simple-index with size 10, a timeout of 30 s and tracked
    total hits, at the offsets 0, 10, ..., 90 in this order; and what the
    program wrote with fmt.Println and package log is one line: the
    indented JSON of the users of the ten pages, concatenated in fetch
    order, or the error of encoding them. *)
Theorem main_requests (fuel : nat) (w w' : World) (out out' : list Printed) :
  (10 < fuel)%nat ->
  main fuel (w, out) = (Ret tt, (w', out')) ->
  LoggerNew = None /\
  NewClient mainEsCfg = None /\
  exists pages reqs,
    Fetched {| defaultIndex := "my-simple-index";
               maxSearchQueryTimeout := 30000000000;
               isTrackTotalHits := true |} "" 10
      (snd (New mainEsCfg customStorageCfg w))
      [0; 10; 20; 30; 40; 50; 60; 70; 80; 90] pages w' /\
    out' = out ++ [match MarshalIndent (concat (Users <$> pages)) with
                   | Ok b => PrintlnJSON b
                   | Err err => PrintlnError err
                   end] /\
    issued w' = issued w ++ reqs /\
    WithFrom <$> reqs = Some <$> [0; 10; 20; 30; 40; 50; 60; 70; 80; 90] /\
    Forall (fun req =>
              WithIndex req = "my-simple-index" /\ WithSize req = 10 /\
              WithTimeout req = 30000000000 /\
              WithTrackTotalHits req = true) reqs.
Proof.
  intros Hfuel. unfold main, bindP, prepareESClient, bindP, liftM, New.
  destruct LoggerNew as [e|]; [discriminate|].
  destruct (NewClient mainEsCfg) as [e|]; [discriminate|].
  unfold bind, log, ret, retP. cbn [fst snd].
  match goal with |- context [loadSimplePagination fuel ?c "" ?wx] =>
    set (client := c); set (w0 := wx);
    destruct (loadSimplePagination fuel client "" w0)
      as [[res|msg|code|] w1] eqn:Hrun end; try discriminate.
  unfold pp, println. cbn [fst snd].
  intros Hpp.
  assert (w1 = w' /\
          out' = out ++ [match MarshalIndent res with
                         | Ok b => PrintlnJSON b
                         | Err err => PrintlnError err
                         end]) as [-> ->].
  { by destruct (MarshalIndent res); injection Hpp as <- <-. }
  clear Hpp. split; [done|]. split; [done|].
  unfold loadSimplePagination, offsetPagination in Hrun.
  change 0 with (Z.of_nat 0 * 10) in Hrun.
  apply (offsetLoop_returns client "" 10 100 eq_refl) with (m := 10%nat)
    in Hrun as (pages & _ & HF & -> & _ & _); [|done..].
  destruct (Fetched_requests _ _ _ _ _ _ _ HF) as (reqs & Hi & Hreqs).
  exists pages, reqs. split; [exact HF|]. split; [reflexivity|].
  split; [exact Hi|].
  vm_compute offsetsFrom in Hreqs.
  repeat match goal with
         | H : Forall2 _ (_ :: _) _ |- _ =>
             inversion H as [|? ? ? ? [? ->] ?]; clear H; subst
         | H : Forall2 _ [] _ |- _ => inversion H; clear H; subst
         end.
  split; [reflexivity|]. repeat constructor.
Qed.

End ProgramProperties.

Section ProgramScriptedRuns.
Import Scripted.

Local Existing Instances codec engineOf platform.
Local Existing Instances ScriptedAdmin.library ScriptedProgram.env.

Lemma main_requests_witness :
  fst (main 11 (world (repeat (ok200 "002"%byte) 10), [])) = Ret tt /\
  exists pages,
    snd (snd (main 11 (world (repeat (ok200 "002"%byte) 10), [])))
    = [match MarshalIndent (concat (Users <$> pages)) with
       | Ok b => PrintlnJSON b
       | Err err => PrintlnError err
       end] /\
    length pages = 10%nat.
Proof.
  split; [reflexivity|].
  destruct (main_requests 11
              (world (repeat (ok200 "002"%byte) 10))
              (fst (snd (main 11 (world (repeat (ok200 "002"%byte) 10), []))))
              []
              (snd (snd (main 11 (world (repeat (ok200 "002"%byte) 10), [])))))
    as (_ & _ & pages & reqs & HF & Hout & _).
  - lia.
  - reflexivity.
  - exists pages. split; [exact Hout|].
    exact (Fetched_length _ _ _ _ _ _ _ HF).
Defined.

End ProgramScriptedRuns.
